(** * Moon Missions Records Dashboard: the logic of [dash_app.py]

    A shallow embedding of the table clean-up, the input validators, the
    aggregators and the three request handlers of [dash_app.py], and the
    properties of them that the specification states.

    Conventions of the embedding.
    - A pandas cell of an object column is an [option string]; [None] is the
      missing value (NaN).
    - A Python exception is a value of [exn]; code that may raise returns a
      [result].
    - [pd.to_datetime] is library code: it is a parameter of the
      development, constrained by the two facts of pandas 2.1 the program
      relies on ([parser_contract]).
    - [Series.str.contains] searches for a regular expression. Where the
      pattern is text of the source without metacharacters ("fail", a name
      of the allow-list) it is substring search; where the pattern comes
      from the data (line 394) the regular expression engine is a
      parameter ([regex_engine]). *)

From Stdlib Require Import ZArith List String Ascii Bool Arith Lia DecimalString.
From Stdlib Require Import Permutation Sorted.
Import ListNotations.

Local Open Scope string_scope.
Local Open Scope Z_scope.

(* ===================================================================== *)
(** ** Python results and exceptions *)
(* ===================================================================== *)

Module Py.

(** The exception classes the program can meet; [ReError] is [re.error]. *)
Inductive exn : Type :=
| ValueError
| IndexError
| AttributeError
| ReError.

Inductive result (A : Type) : Type :=
| Return (a : A)
| Raise (e : exn).

Arguments Return {A} a.
Arguments Raise {A} e.

Definition bind {A B : Type} (c : result A) (k : A -> result B) : result B :=
  match c with
  | Return a => k a
  | Raise e => Raise e
  end.

(** [try: c  except ValueError: h] *)
Definition try_except_ValueError {A : Type} (c : result A) (h : result A)
  : result A :=
  match c with
  | Raise ValueError => h
  | other => other
  end.

(** [try: c  except Exception as e: h e], followed by [k] on the value
    the guarded block binds. *)
Definition try_except_Exception {A B : Type}
    (c : result A) (h : exn -> result B) (k : A -> result B) : result B :=
  match c with
  | Return a => k a
  | Raise e => h e
  end.

End Py.

Import Py.

Notation "x <- c ;; k" := (Py.bind c (fun x => k))
  (at level 61, c at next level, right associativity).

(* ===================================================================== *)
(** ** Calendar dates *)
(* ===================================================================== *)

(** The fields of a [pandas.Timestamp] the program can observe. *)
Record Timestamp : Type := mkTimestamp {
  year : Z;
  month : Z;
  day : Z;
  hour : Z;
  minute : Z;
  second : Z;
  microsecond : Z;
  nanosecond : Z
}.

Definition is_leap (y : Z) : bool :=
  (y mod 4 =? 0) && (negb (y mod 100 =? 0) || (y mod 400 =? 0)).

Definition days_in_month (y m : Z) : Z :=
  if m =? 2 then (if is_leap y then 29 else 28)
  else if (m =? 4) || (m =? 6) || (m =? 9) || (m =? 11) then 30
  else 31.

(** The date exists in the proleptic Gregorian calendar. *)
Definition valid_date (ts : Timestamp) : bool :=
  (1 <=? month ts) && (month ts <=? 12) &&
  (1 <=? day ts) && (day ts <=? days_in_month (year ts) (month ts)).

Definition with_year (ts : Timestamp) (y : Z) : Timestamp :=
  {| year := y; month := month ts; day := day ts; hour := hour ts;
     minute := minute ts; second := second ts;
     microsecond := microsecond ts; nanosecond := nanosecond ts |}.

(** [ts.replace(year=y)]: a [ValueError] when the year is below
    [datetime.MINYEAR] or the day does not exist in the new year
    (29 February). *)
Definition replace_year (ts : Timestamp) (y : Z) : result Timestamp :=
  if (1 <=? y) && valid_date (with_year ts y)
  then Return (with_year ts y)
  else Raise ValueError.

(** What a cell of the Launch Date column holds after normalisation: a
    date, pandas' NaT, or the float NaN. *)
Inductive date_cell : Type :=
| Ts (ts : Timestamp)
| NaT
| NaN.

(** The year after which a parsed date is taken to be a century late. *)
Definition cutoff_year : Z := 2023.

(** The years a nanosecond-resolution [Timestamp] can hold
    ([Timestamp.min] is in 1677, [Timestamp.max] in 2262). *)
Definition timestamp_min_year : Z := 1677.
Definition timestamp_max_year : Z := 2262.

Definition in_timestamp_bounds (ts : Timestamp) : bool :=
  (timestamp_min_year <=? year ts) && (year ts <=? timestamp_max_year).

(** The contract of [pd.to_datetime] on a string that the program relies
    on: a failure is a [ValueError] (DateParseError and
    OutOfBoundsDatetime are subclasses of it), and a date it returns
    exists and fits a nanosecond timestamp. [Return None] is NaT. *)
Definition datetime_parser : Type := string -> result (option Timestamp).

Definition parser_contract (to_datetime : datetime_parser) : Prop :=
  (forall s e, to_datetime s = Raise e -> e = ValueError) /\
  (forall s ts, to_datetime s = Return (Some ts) ->
     valid_date ts = true /\ in_timestamp_bounds ts = true).

(** [validate_date_input], lines 40-47. A missing cell (NaN read from an
    empty CSV field) parses to NaT; [NaT.year] is NaN and [NaN > 2023] is
    false, so NaT is returned as it is. *)
Definition validate_date_input (to_datetime : datetime_parser)
    (date : option string) : result date_cell :=
  try_except_ValueError
    (parsed_date <- match date with
                    | Some s => to_datetime s
                    | None => Return None
                    end ;;
     match parsed_date with
     | None => Return NaT
     | Some ts =>
         if year ts >? cutoff_year
         then (ts' <- replace_year ts (year ts - 100) ;; Return (Ts ts'))
         else Return (Ts ts)
     end)
    (Return NaN).

(* --------------------------------------------------------------------- *)
(** *** A parser for ISO dates

    An instance of [pd.to_datetime] on the strings "YYYY-MM-DD" and on the
    empty string, used to run the program on concrete tables. *)

Definition digit_of (c : ascii) : option Z :=
  let n := Z.of_nat (nat_of_ascii c) in
  if (48 <=? n) && (n <=? 57) then Some (n - 48) else None.

Fixpoint digits_value (acc : Z) (cs : list ascii) : option Z :=
  match cs with
  | [] => Some acc
  | c :: cs' =>
      match digit_of c with
      | Some d => digits_value (10 * acc + d) cs'
      | None => None
      end
  end.

Definition midnight (y m d : Z) : Timestamp :=
  mkTimestamp y m d 0 0 0 0 0.

(** The year, month and day of a text of the shape YYYY-MM-DD. *)
Definition iso_fields (cs : list ascii) : option Timestamp :=
  match cs with
  | [y1; y2; y3; y4; "-"%char; m1; m2; "-"%char; d1; d2] =>
      match digits_value 0 [y1; y2; y3; y4],
            digits_value 0 [m1; m2], digits_value 0 [d1; d2] with
      | Some y, Some m, Some d => Some (midnight y m d)
      | _, _, _ => None
      end
  | _ => None
  end.

Definition iso_to_datetime : datetime_parser := fun s =>
  match list_ascii_of_string s with
  | [] => Return None
  | cs =>
      match iso_fields cs with
      | Some ts =>
          if valid_date ts && in_timestamp_bounds ts
          then Return (Some ts)
          else Raise ValueError
      | None => Raise ValueError
      end
  end.

(* ===================================================================== *)
(** ** Python strings *)
(* ===================================================================== *)

(** [pat in s]: [pat] occurs in [s] as a substring. *)
Fixpoint str_contains (pat s : string) : bool :=
  String.prefix pat s ||
  match s with
  | EmptyString => false
  | String _ s' => str_contains pat s'
  end.

(** [name.split(' ')[0]] *)
Fixpoint first_word (s : string) : string :=
  match s with
  | EmptyString => EmptyString
  | String c s' =>
      if (c =? " ")%char then EmptyString else String c (first_word s')
  end.

Definition lower_ascii (c : ascii) : ascii :=
  let n := nat_of_ascii c in
  if (65 <=? n)%nat && (n <=? 90)%nat then ascii_of_nat (n + 32) else c.

(** [s.lower()], on ASCII letters; the bytes of other characters are kept. *)
Fixpoint lower (s : string) : string :=
  match s with
  | EmptyString => EmptyString
  | String c s' => String (lower_ascii c) (lower s')
  end.

(** [str(n)] for an integer. *)
Definition py_str (n : Z) : string :=
  DecimalString.NilZero.string_of_int (Z.to_int n).

(** [value in xs] for a list of strings. *)
Definition str_in (value : string) (xs : list string) : bool :=
  existsb (String.eqb value) xs.

(* ===================================================================== *)
(** ** The table *)
(* ===================================================================== *)

(** A row of the table, with the Launch Date column of type [D]: text in
    the CSV file, an optional date once normalised (the datetime column
    holds NaT for both missing markers). The columns the logic does not
    read are kept in [passthrough]. *)
Record Row (D : Type) : Type := mkRow {
  Launch_Date : D;
  Operator : option string;
  Mission_Type : option string;
  Outcome : option string;
  passthrough : list (option string)
}.

Arguments mkRow {D}.
Arguments Launch_Date {D}.
Arguments Operator {D}.
Arguments Mission_Type {D}.
Arguments Outcome {D}.
Arguments passthrough {D}.

Definition CsvRow : Type := Row (option string).
Definition Mission : Type := Row (option Timestamp).
Definition DataFrame : Type := list Mission.

Definition is_none {A : Type} (o : option A) : bool :=
  match o with
  | None => true
  | Some _ => false
  end.

Definition option_eqb {A : Type} (eqb : A -> A -> bool) (x y : option A) : bool :=
  match x, y with
  | Some a, Some b => eqb a b
  | None, None => true
  | _, _ => false
  end.

Definition label : Type := option string.
Definition label_eqb : label -> label -> bool := option_eqb String.eqb.

Definition ts_eqb (a b : Timestamp) : bool :=
  (year a =? year b) && (month a =? month b) && (day a =? day b) &&
  (hour a =? hour b) && (minute a =? minute b) && (second a =? second b) &&
  (microsecond a =? microsecond b) && (nanosecond a =? nanosecond b).

(** The order of timestamps: by date, then by time of day. *)
Fixpoint lex_leb (a b : list Z) : bool :=
  match a, b with
  | x :: a', y :: b' => (x <? y) || ((x =? y) && lex_leb a' b')
  | _, _ => true
  end.

Definition ts_fields (t : Timestamp) : list Z :=
  [year t; month t; day t; hour t; minute t; second t; microsecond t;
   nanosecond t].

Definition ts_leb (a b : Timestamp) : bool := lex_leb (ts_fields a) (ts_fields b).

(** [Series.unique()]: the distinct values, in order of first appearance. *)
Fixpoint unique_from {A : Type} (eqb : A -> A -> bool) (seen l : list A) : list A :=
  match l with
  | [] => []
  | x :: l' =>
      if existsb (eqb x) seen then unique_from eqb seen l'
      else x :: unique_from eqb (x :: seen) l'
  end.

Definition unique {A : Type} (eqb : A -> A -> bool) (l : list A) : list A :=
  unique_from eqb [] l.

Definition count_eqb {A : Type} (eqb : A -> A -> bool) (x : A) (l : list A) : Z :=
  Z.of_nat (List.length (filter (eqb x) l)).

Fixpoint dropna {A : Type} (l : list (option A)) : list A :=
  match l with
  | [] => []
  | Some a :: l' => a :: dropna l'
  | None :: l' => dropna l'
  end.

(** The count of every distinct value that is not missing, in order of
    first appearance. *)
Definition first_appearance_counts {A : Type} (eqb : A -> A -> bool)
    (col : list (option A)) : list (A * Z) :=
  let present := dropna col in
  map (fun v => (v, count_eqb eqb v present)) (unique eqb present).

(** Sorting by descending count; entries with equal counts keep their
    order. *)
Fixpoint insert_by_count {A : Type} (e : A * Z) (l : list (A * Z)) : list (A * Z) :=
  match l with
  | [] => [e]
  | x :: l' => if snd x <=? snd e then e :: x :: l' else x :: insert_by_count e l'
  end.

Definition sort_by_count {A : Type} (l : list (A * Z)) : list (A * Z) :=
  fold_right insert_by_count [] l.

(** [Series.value_counts()]: the count of every distinct value that is not
    missing, the most frequent first. *)
Definition value_counts {A : Type} (eqb : A -> A -> bool) (col : list (option A))
  : list (A * Z) :=
  sort_by_count (first_appearance_counts eqb col).

(** [Series.str.contains(pat)] for a pattern without regular expression
    metacharacters, which matches where it occurs: NaN where the cell is
    missing. The program calls it so with "fail" (line 79) and with a name
    of [allowed_countries] (lines 367, 368, 401). *)
Definition str_contains_series (col : list (option string)) (pat : string)
  : list (option bool) :=
  map (option_map (str_contains pat)) col.

(** [re.compile(pat)] followed by [.search]: a matcher, or the exception of
    a pattern that does not compile. The engine is library code and a
    parameter of the development. *)
Definition regex_engine : Type := string -> result (string -> bool).

(** The characters with a meaning of their own in a regular expression. *)
Definition is_metachar (c : ascii) : bool :=
  existsb (Ascii.eqb c)
    ["."%char; "^"%char; "$"%char; "*"%char; "+"%char; "?"%char; "{"%char;
     "}"%char; "["%char; "]"%char; "092"%char; "|"%char; "("%char; ")"%char].

Definition regex_plain (pat : string) : bool :=
  forallb (fun c => negb (is_metachar c)) (list_ascii_of_string pat).

(** What the program relies on: a pattern without metacharacters compiles
    and matches exactly the strings it occurs in. *)
Definition regex_contract (regex : regex_engine) : Prop :=
  forall pat, regex_plain pat = true ->
    exists m, regex pat = Return m /\ forall s, m s = str_contains pat s.

(** [Series.str.contains(pat)] for any pattern: the pattern is compiled
    first, then searched for in every cell that is not missing. *)
Definition str_contains_regex (regex : regex_engine) (col : list (option string))
    (pat : string) : result (list (option bool)) :=
  m <- regex pat ;;
  Return (map (option_map m) col).

(** An engine for the patterns without metacharacters, used to run the
    program on concrete tables. *)
Definition literal_regex : regex_engine := fun pat =>
  if regex_plain pat then Return (str_contains pat) else Raise ReError.

Fixpoint select {A : Type} (rows : list A) (mask : list bool) : list A :=
  match rows, mask with
  | r :: rows', b :: mask' =>
      if b then r :: select rows' mask' else select rows' mask'
  | _, _ => []
  end.

(** [df[mask]]: pandas refuses a mask that holds a missing value
    ("Cannot mask with non-boolean array containing NA / NaN values"). *)
Definition boolean_index {A : Type} (rows : list A) (mask : list (option bool))
  : result (list A) :=
  if existsb is_none mask then Raise ValueError
  else Return (select rows (map (fun b => match b with
                                          | Some true => true
                                          | _ => false
                                          end) mask)).

(* ===================================================================== *)
(** ** Module initialisation (lines 33-83) *)
(* ===================================================================== *)

Definition allowed_countries : list string :=
  ["All Countries"; "United States"; "Soviet Union"; "Japan";
   "European Union"; "China"; "India"; "Luxembourg"; "Israel";
   "South Korea"; "Italy"; "UAE"; "Russia"].

Definition allowed_file_formats : list string := ["csv"; "json"; "excel"].

(** The globals the handlers read. *)
Record App : Type := mkApp {
  data : DataFrame;
  min_allowed_year : Z;
  max_allowed_year : Z;
  fail : DataFrame;
  allowed_fails : list string
}.

Fixpoint mapM {A B : Type} (f : A -> result B) (l : list A) : result (list B) :=
  match l with
  | [] => Return []
  | x :: l' => y <- f x ;; ys <- mapM f l' ;; Return (y :: ys)
  end.

(** The cell as the datetime column stores it. *)
Definition to_datetime64 (c : date_cell) : option Timestamp :=
  match c with
  | Ts ts => Some ts
  | NaT | NaN => None
  end.

(** [data['Launch Date'] = data['Launch Date'].apply(validate_date_input)] *)
Definition normalize_row (to_datetime : datetime_parser) (r : CsvRow)
  : result Mission :=
  c <- validate_date_input to_datetime (Launch_Date r) ;;
  Return (mkRow (to_datetime64 c) (Operator r) (Mission_Type r) (Outcome r)
                (passthrough r)).

Fixpoint extremum (better : Timestamp -> Timestamp -> bool)
    (best : Timestamp) (l : list Timestamp) : Timestamp :=
  match l with
  | [] => best
  | t :: l' => extremum better (if better t best then t else best) l'
  end.

(** [Series.min()] and [Series.max()] of a datetime column skip the
    missing dates; [None] is the NaT they give when every date is
    missing. *)
Definition series_min (col : list (option Timestamp)) : option Timestamp :=
  match dropna col with
  | [] => None
  | t :: l => Some (extremum ts_leb t l)
  end.

Definition series_max (col : list (option Timestamp)) : option Timestamp :=
  match dropna col with
  | [] => None
  | t :: l => Some (extremum (fun a b => ts_leb b a) t l)
  end.

Definition is_NaN (c : date_cell) : bool :=
  match c with
  | NaN => true
  | Ts _ | NaT => false
  end.

(** The column [apply] builds is a datetime column when some value is a
    date or NaT; a column of NaN only, or of no value at all, is a column
    of floats. *)
Definition is_datetime_column (cells : list date_cell) : bool :=
  existsb (fun c => negb (is_NaN c)) cells.

(** [.year] of a minimum or maximum: the year of a date, NaN ([None]) for
    NaT, and an [AttributeError] for the float NaN of a column of floats. *)
Definition year_of_extreme (datetime_column : bool) (extreme : option Timestamp)
  : result (option Z) :=
  if datetime_column then Return (option_map year extreme)
  else Raise AttributeError.

(** [allowed_fails[i] = name.split(' ')[0]] for every distinct outcome of
    [fail]. *)
Definition first_word_of (name : option string) : result string :=
  match name with
  | Some s => Return (first_word s)
  | None => Raise AttributeError
  end.

(** How the program starts serving: with the globals of [App], or, when no
    row has a date, with NaN for both year bounds. The handlers are
    modelled for integer bounds; the model does not follow the program
    after a start with NaN bounds. *)
Inductive Start : Type :=
| Serving (app : App)
| ServingWithoutYears (data fail : DataFrame) (allowed_fails : list string).

Definition load (to_datetime : datetime_parser) (csv : list CsvRow) : result Start :=
  cells <- mapM (fun r => validate_date_input to_datetime (Launch_Date r)) csv ;;
  data <- mapM (normalize_row to_datetime) csv ;;
  lo <- year_of_extreme (is_datetime_column cells) (series_min (map Launch_Date data)) ;;
  hi <- year_of_extreme (is_datetime_column cells) (series_max (map Launch_Date data)) ;;
  fail <- boolean_index data (str_contains_series (map Outcome data) "fail") ;;
  allowed_fails <- mapM first_word_of (unique label_eqb (map Outcome fail)) ;;
  Return (match lo, hi with
          | Some lo, Some hi => Serving (mkApp data lo hi fail allowed_fails)
          | _, _ => ServingWithoutYears data fail allowed_fails
          end).

(* ===================================================================== *)
(** ** Chart builders (lines 222-310) *)
(* ===================================================================== *)

Record Pie : Type := mkPie {
  pie_names_values : list (string * Z);
  pie_title : string
}.

Definition create_pie (df : list (string * Z)) (title : string) : Pie :=
  mkPie df title.

Record Scatter : Type := mkScatter {
  scatter_x : list (option Timestamp);
  scatter_y : list (Timestamp * Z);
  scatter_title : string
}.

(** [create_scatter], lines 240-257: [x] holds the distinct dates in order
    of first appearance, NaT included, and [y] the series of counts, the
    most frequent date first; the chart pairs them by position.
    [px.scatter] raises [ValueError] when [x] and [y] are both empty and
    when their lengths differ. The handler calls it on rows that all have
    a date, where [x] holds no NaT and the lengths agree. *)
Definition create_scatter (df : DataFrame) (title : string) : result Scatter :=
  let x := unique (option_eqb ts_eqb) (map Launch_Date df) in
  let y := value_counts ts_eqb (map Launch_Date df) in
  match x, y with
  | [], [] => Raise ValueError
  | _, _ =>
      if (List.length x =? List.length y)%nat then Return (mkScatter x y title)
      else Raise ValueError
  end.

(** A Python dict with string keys, in insertion order. *)
Definition dict : Type := list (string * Z).

Fixpoint dict_set (d : dict) (k : string) (v : Z) : dict :=
  match d with
  | [] => [(k, v)]
  | (k', v') :: d' =>
      if (k =? k')%string then (k', v) :: d' else (k', v') :: dict_set d' k v
  end.

Record Bar : Type := mkBar {
  bar_x : list string;
  bar_y : list Z;
  bar_title : string
}.

Definition create_bar (cd : dict) : Bar :=
  mkBar (map fst cd) (map snd cd) "Number of fails".

(** A frame of one value type: the row labels and, per column label, the
    values of the column in row order. *)
Record Frame (V : Type) : Type := mkFrame {
  index : list label;
  columns : list (label * list V)
}.

Arguments mkFrame {V}.
Arguments index {V}.
Arguments columns {V}.

Record Heatmap : Type := mkHeatmap {
  heatmap_z : Frame Z;
  heatmap_title : string
}.

Definition create_heatmap (df : Frame Z) : Heatmap :=
  mkHeatmap df "Mission Type vs. Mission Outcome".

(** The (Outcome, Mission Type) key of a row; rows with either one missing
    are dropped by [groupby] and by [value_counts]. *)
Definition pair_of (r : Mission) : option (string * string) :=
  match Outcome r, Mission_Type r with
  | Some o, Some t => Some (o, t)
  | _, _ => None
  end.

Definition pair_eqb (a b : string * string) : bool :=
  (fst a =? fst b)%string && (snd a =? snd b)%string.

(** [df.groupby('Outcome')['Mission Type'].value_counts()]: a series keyed
    by (outcome, type). The loop below only looks entries up by key, so
    the entries are listed in order of first appearance. *)
Definition groupby_value_counts (df : DataFrame) : list ((string * string) * Z) :=
  first_appearance_counts pair_eqb (map pair_of df).

(** [column in series.keys()]: the label is an outcome of some key. *)
Definition in_keys (column : label) (series : list ((string * string) * Z)) : bool :=
  match column with
  | None => false
  | Some c => existsb (fun e => (c =? fst (fst e))%string) series
  end.

(** [series[column]]: the counts of one outcome, keyed by mission type. *)
Definition cross_section (series : list ((string * string) * Z)) (column : label)
  : list (string * Z) :=
  match column with
  | None => []
  | Some c =>
      map (fun e => (snd (fst e), snd e))
          (filter (fun e => (c =? fst (fst e))%string) series)
  end.

Definition series_get (s : list (string * Z)) (r : label) : option Z :=
  match r with
  | None => None
  | Some t => option_map snd (find (fun e => (t =? fst e)%string) s)
  end.

(** [col + s], read back at the labels of [idx]: NaN where [s] has no
    entry for the label. *)
Definition add_aligned (idx : list label) (col : list (option Z))
    (s : list (string * Z)) : list (option Z) :=
  map (fun rv => match snd rv, series_get s (fst rv) with
                 | Some a, Some b => Some (a + b)
                 | _, _ => None
                 end)
      (combine idx col).

Definition get_column {V : Type} (f : Frame V) (c : label) : option (list V) :=
  option_map snd (find (fun e => label_eqb c (fst e)) (columns f)).

Definition set_column {V : Type} (f : Frame V) (c : label) (v : list V) : Frame V :=
  mkFrame (index f)
          (map (fun e => if label_eqb c (fst e) then (fst e, v) else e) (columns f)).

(** [.loc[r, c]] *)
Fixpoint position (r : label) (idx : list label) : option nat :=
  match idx with
  | [] => None
  | x :: idx' =>
      if label_eqb r x then Some O else option_map S (position r idx')
  end.

Definition frame_cell {V : Type} (f : Frame V) (r c : label) : option V :=
  match get_column f c, position r (index f) with
  | Some col, Some i => nth_error col i
  | _, _ => None
  end.

Definition fillna_astype_int (f : Frame (option Z)) : Frame Z :=
  mkFrame (index f)
          (map (fun e => (fst e, map (fun v => match v with
                                               | Some z => z
                                               | None => 0
                                               end) (snd e)))
               (columns f)).

(** [pd.DataFrame(0, columns=cols, index=idx)], line 304. *)
Definition zero_frame (idx cols : list label) : Frame (option Z) :=
  mkFrame idx (map (fun c => (c, map (fun _ => Some 0) idx)) cols).

(** The body of the loop of lines 306-308, for one column label. *)
Definition add_outcome_counts (series : list ((string * string) * Z))
    (ne : Frame (option Z)) (column : label) : Frame (option Z) :=
  if in_keys column series then
    match get_column ne column with
    | Some col =>
        set_column ne column
          (add_aligned (index ne) col (cross_section series column))
    | None => ne
    end
  else ne.

(** [create_matrix_for_heatmap], lines 293-310; [data] is the global table. *)
Definition create_matrix_for_heatmap (data df : DataFrame) : Frame Z :=
  let series := groupby_value_counts df in
  let ne := zero_frame (unique label_eqb (map Mission_Type data))
                       (unique label_eqb (map Outcome data)) in
  let ne := fold_left (add_outcome_counts series) (map fst (columns ne)) ne in
  fillna_astype_int ne.

(* ===================================================================== *)
(** ** Validators and handlers (lines 311-423) *)
(* ===================================================================== *)

Definition validate_country_input (value : string) : string :=
  if str_in value allowed_countries then value else "All Countries".

Definition validate_year_range (app : App) (start_year end_year : Z) : Z * Z :=
  if (min_allowed_year app <=? start_year) && (start_year <=? max_allowed_year app) &&
     ((min_allowed_year app <=? end_year) && (end_year <=? max_allowed_year app))
  then (start_year, end_year)
  else (min_allowed_year app, max_allowed_year app).

(** What a handler hands back for the chart area. *)
Inductive Children : Type :=
| Graphs (pie : Pie) (scatter : Scatter) (heatmap : Heatmap)
| ErrorMessage (text : string).

(** [ts.strftime("%Y")]; the year of a timestamp has four digits. *)
Definition strftime_Y (ts : Timestamp) : string := py_str (year ts).

(** The mask of lines 349-350. A comparison with the NaN that [strftime]
    gives for NaT is false. *)
Definition year_mask (df : DataFrame) (y0 y1 : Z) : list (option bool) :=
  map (fun r => match Launch_Date r with
                | None => Some false
                | Some ts =>
                    Some (String.leb (py_str y0) (strftime_Y ts) &&
                          String.leb (strftime_Y ts) (py_str y1))
                end) df.

Definition error_text : string := "An error occurred during data manipulation.".

(** Lines 357-373 of [get_charts_by_country]: the charts, from the rows of
    the year range. *)
Definition charts_of_year_df (app : App) (entered_country : string)
    (year_df : DataFrame) : result Children :=
  if (entered_country =? "All Countries")%string then
    let pie_df := value_counts String.eqb (map Outcome year_df) in
    scatter <- create_scatter year_df "Launch Date vs. Number of Launches in Total" ;;
    Return (Graphs
      (create_pie pie_df "Total Mission Outcomes")
      scatter
      (create_heatmap (create_matrix_for_heatmap (data app) year_df)))
  else
    pie_rows <- boolean_index year_df
                  (str_contains_series (map Operator year_df) entered_country) ;;
    let pie_df := value_counts String.eqb (map Outcome pie_rows) in
    country_df <- boolean_index year_df
                    (str_contains_series (map Operator year_df) entered_country) ;;
    scatter <- create_scatter country_df
                 ("Launch Date vs. Number of Launches for " ++ entered_country) ;;
    Return (Graphs
      (create_pie pie_df ("Mission outcomes for " ++ entered_country))
      scatter
      (create_heatmap (create_matrix_for_heatmap (data app) country_df))).

(** The [try] of lines 346-355 around a step that yields the rows of the
    year range, with the rest of the handler after it. *)
Definition guarded_year_step (app : App) (entered_country : string)
    (step : result DataFrame) : result Children :=
  try_except_Exception step
    (fun _ => Return (ErrorMessage error_text))
    (charts_of_year_df app entered_country).

(** [get_charts_by_country], lines 341-373; the slider value is the pair
    of its two bounds. *)
Definition get_charts_by_country (app : App) (entered_country : string)
    (entered_years : Z * Z) : result Children :=
  let entered_country := validate_country_input entered_country in
  let entered_years :=
    validate_year_range app (fst entered_years) (snd entered_years) in
  guarded_year_step app entered_country
    (boolean_index (data app)
       (year_mask (data app) (fst entered_years) (snd entered_years))).

(** [validate_fail_input], lines 376-382; [allowed_fails[0]] on an empty
    array is an [IndexError]. *)
Definition validate_fail_input (app : App) (value : string) : result string :=
  if str_in value (allowed_fails app) then Return value
  else match allowed_fails app with
       | first :: _ => Return first
       | [] => Raise IndexError
       end.

(** The counting loop of lines 400-401. *)
Fixpoint count_per_country (choosen_fail : DataFrame) (keys : list string)
    (cd : dict) : result dict :=
  match keys with
  | [] => Return cd
  | country :: keys' =>
      rows <- boolean_index choosen_fail
                (str_contains_series (map Operator choosen_fail) country) ;;
      count_per_country choosen_fail keys'
        (dict_set cd country (Z.of_nat (List.length rows)))
  end.

(** [get_bar_chart], lines 389-404. The validated category, a word read
    from the data, is the regular expression of line 394. *)
Definition get_bar_chart (regex : regex_engine) (app : App) (entered_fail : string)
  : result Bar :=
  entered_fail <- validate_fail_input app entered_fail ;;
  mask <- str_contains_regex regex (map Outcome (fail app)) entered_fail ;;
  choosen_fail <- boolean_index (fail app) mask ;;
  let cd := fold_left (fun d c => dict_set d c 0) allowed_countries [] in
  cd <- count_per_country choosen_fail (map fst cd) cd ;;
  Return (create_bar cd).

(** The three writers of a frame, and what [dcc.send_data_frame] is asked
    to send: a writer, the frame and a file name. The bytes the writer
    produces are the work of pandas and are not part of the model. *)
Inductive Writer : Type := to_csv | to_json | to_excel.

Record Download : Type := mkDownload {
  writer : Writer;
  frame : DataFrame;
  filename : string
}.

Definition send_data_frame (w : Writer) (df : DataFrame) (name : string) : Download :=
  mkDownload w df name.

(** [get_download], lines 412-423; [None] is Python's [None]. *)
Definition get_download (app : App) (n_clicks : Z) (entered_file_format : string)
  : option Download :=
  if str_in (lower entered_file_format) allowed_file_formats then
    if (lower entered_file_format =? "csv")%string then
      Some (send_data_frame to_csv (data app) "Moonlanding.csv")
    else if (lower entered_file_format =? "json")%string then
      Some (send_data_frame to_json (data app) "Moonlanding.json")
    else if (lower entered_file_format =? "excel")%string then
      Some (send_data_frame to_excel (data app) "Moonlanding.xlsx")
    else None
  else None.

(* ===================================================================== *)
(** ** A small table to run the program on *)
(* ===================================================================== *)

Definition csv_row (date operator type outcome : string) : CsvRow :=
  mkRow (Some date) (Some operator) (Some type) (Some outcome) [].

Definition sample_csv : list CsvRow :=
  [ csv_row "1966-01-31" "Soviet Union" "Lander" "Successful";
    csv_row "1969-02-19" "Soviet Union" "Rover" "Spacecraft failure";
    csv_row "2069-07-16" "United States" "Lander" "Successful";
    csv_row "1970-04-11" "United States" "Lander" "Partial failure";
    csv_row "1972-12-07" "United States" "Lander" "Successful";
    csv_row "1990-01-24" "Japan" "Orbiter" "Successful";
    csv_row "not a date" "Soviet Union" "Orbiter" "Launch failure";
    csv_row "2019-02-22" "Israel, United States" "Lander" "Spacecraft failure";
    csv_row "2003-09-27" "European Space Agency" "Orbiter" "Successful" ].

(** A table without any failed mission. *)
Definition csv_without_failure : list CsvRow :=
  [ csv_row "1969-07-16" "United States" "Lander" "Successful" ].

(** A table with a failed mission whose operator is not allow-listed. *)
Definition csv_other_operator : list CsvRow :=
  [ csv_row "1969-07-16" "United States" "Lander" "Successful";
    csv_row "2003-09-27" "European Space Agency" "Orbiter" "Launch failure" ].

(** A table with a mission whose Operator cell is empty. *)
Definition csv_missing_operator : list CsvRow :=
  [ csv_row "1969-07-16" "United States" "Lander" "Successful";
    mkRow (Some "1970-09-12") None (Some "Lander") (Some "Successful") [] ].

(** A table with two launches on one date. *)
Definition csv_repeated_date : list CsvRow :=
  [ csv_row "1969-07-16" "United States" "Lander" "Successful";
    csv_row "1970-04-11" "United States" "Lander" "Partial failure";
    csv_row "1970-04-11" "Soviet Union" "Orbiter" "Successful" ].

Definition app_of (csv : list CsvRow) : App :=
  match load iso_to_datetime csv with
  | Return (Serving app) => app
  | _ => mkApp [] 0 0 [] []
  end.

(* ===================================================================== *)
(** ** The vocabulary of the specification *)
(* ===================================================================== *)

Definition sum_Z (l : list Z) : Z := fold_right Z.add 0 l.

Definition count_rows {A : Type} (p : A -> bool) (rows : list A) : Z :=
  Z.of_nat (List.length (filter p rows)).

(** The Launch Date is present and its year lies in [[y0, y1]]. *)
Definition year_in_range (y0 y1 : Z) (r : Mission) : bool :=
  match Launch_Date r with
  | Some ts => (y0 <=? year ts) && (year ts <=? y1)
  | None => false
  end.

(** The same test as the handler writes it, on the text of the years. *)
Definition year_text_in_range (y0 y1 : Z) (r : Mission) : bool :=
  match Launch_Date r with
  | Some ts => String.leb (py_str y0) (strftime_Y ts) &&
               String.leb (strftime_Y ts) (py_str y1)
  | None => false
  end.

Definition operator_contains (country : string) (r : Mission) : bool :=
  match Operator r with
  | Some op => str_contains country op
  | None => false
  end.

Definition outcome_contains (pat : string) (r : Mission) : bool :=
  match Outcome r with
  | Some o => str_contains pat o
  | None => false
  end.

Definition has_outcome (o : string) (r : Mission) : bool :=
  match Outcome r with
  | Some o' => (o =? o')%string
  | None => false
  end.

(** No row of the frame has an empty Operator cell. *)
Definition operators_present (df : DataFrame) : bool :=
  forallb (fun r => negb (is_none (Operator r))) df.

(** The row has a Launch Date. *)
Definition has_date (r : Mission) : bool := negb (is_none (Launch_Date r)).

(** No row of the frame has an empty Outcome cell. *)
Definition outcomes_present (df : DataFrame) : bool :=
  forallb (fun r => negb (is_none (Outcome r))) df.

(** The three charts of a record set. *)
Definition charts_for (data records : DataFrame) (pie_title scatter_title : string)
  : result Children :=
  scatter <- create_scatter records scatter_title ;;
  Return (Graphs (create_pie (value_counts String.eqb (map Outcome records)) pie_title)
                 scatter
                 (create_heatmap (create_matrix_for_heatmap data records))).

(** The order of [value_counts]: an entry comes before the entries whose
    count is not larger. *)
Definition by_count_desc {A : Type} (a b : A * Z) : Prop := snd b <= snd a.

Definition has_launch_date (t : Timestamp) (r : Mission) : bool :=
  match Launch_Date r with
  | Some t' => ts_eqb t t'
  | None => false
  end.

(** The titles of lines 359-360 and 370-371. *)
Definition pie_title_for (country : string) : string :=
  if (country =? "All Countries")%string then "Total Mission Outcomes"
  else "Mission outcomes for " ++ country.

Definition scatter_title_for (country : string) : string :=
  if (country =? "All Countries")%string
  then "Launch Date vs. Number of Launches in Total"
  else "Launch Date vs. Number of Launches for " ++ country.

(** The three charts of a record set that has a record, each row of which
    has a date. *)
Definition charts_of_records (data records : DataFrame) (country : string)
  : Children :=
  Graphs (create_pie (value_counts String.eqb (map Outcome records))
            (pie_title_for country))
         (mkScatter (unique (option_eqb ts_eqb) (map Launch_Date records))
                    (value_counts ts_eqb (map Launch_Date records))
                    (scatter_title_for country))
         (create_heatmap (create_matrix_for_heatmap data records)).

(** The records a compiled category selects: the rows of the table whose
    Outcome contains "fail" and is matched by the category. *)
Definition outcome_matches (m : string -> bool) (r : Mission) : bool :=
  match Outcome r with
  | Some o => m o
  | None => false
  end.

Definition selected_failures (df : DataFrame) (m : string -> bool) : DataFrame :=
  filter (outcome_matches m) (filter (outcome_contains "fail") df).

(** A format written in any mix of upper and lower case ASCII letters. *)
Definition upper_ascii (c : ascii) : ascii :=
  let n := nat_of_ascii c in
  if (97 <=? n)%nat && (n <=? 122)%nat then ascii_of_nat (n - 32) else c.

Definition lower_letter (c : ascii) : bool :=
  (97 <=? nat_of_ascii c)%nat && (nat_of_ascii c <=? 122)%nat.

Fixpoint case_variant (fmt target : string) : bool :=
  match fmt, target with
  | EmptyString, EmptyString => true
  | String c fmt', String d target' =>
      ((c =? d)%char || (c =? upper_ascii d)%char) && case_variant fmt' target'
  | _, _ => false
  end.

(** The record set of the charts-by-country handler, in the words of the
    specification: the year range first, then the country unless it is the
    sentinel. *)
Definition charts_record_set (df : DataFrame) (country : string) (y0 y1 : Z)
  : DataFrame :=
  let by_year := filter (year_in_range y0 y1) df in
  if (country =? "All Countries")%string then by_year
  else filter (operator_contains country) by_year.

(** The failure records of a category, in the words of the specification. *)
Definition failure_records (df : DataFrame) (category : string) : DataFrame :=
  filter (outcome_contains category) (filter (outcome_contains "fail") df).

(** How many allow-listed names occur in the Operator of a row. *)
Definition matched_countries (r : Mission) : Z :=
  count_rows (fun c => operator_contains c r) allowed_countries.

(** The rows with the given mission type and outcome; a missing label
    stands for no row, as [groupby] and [value_counts] drop missing keys. *)
Definition has_pair (type outcome : label) (r : Mission) : bool :=
  match type, outcome with
  | Some t, Some o => option_eqb pair_eqb (Some (o, t)) (pair_of r)
  | _, _ => false
  end.

(** Neither the Mission Type nor the Outcome of the row is missing. *)
Definition both_present (r : Mission) : bool :=
  negb (is_none (Mission_Type r)) && negb (is_none (Outcome r)).

(** A column of the frame of zeros, and the column of a label after its
    turn in the loop. *)
Definition zero_column (idx : list label) (c : label) : label * list (option Z) :=
  (c, map (fun _ : label => Some 0) idx).

Definition counted_column (series : list ((string * string) * Z))
    (idx : list label) (c : label) : list (option Z) :=
  if in_keys c series
  then add_aligned idx (map (fun _ => Some 0) idx) (cross_section series c)
  else map (fun _ => Some 0) idx.

(** The value a cell of a column gets from the loop and from [fillna]. *)
Definition filled_cell (series : list ((string * string) * Z)) (column r : label) : Z :=
  if in_keys column series then
    match series_get (cross_section series column) r with
    | Some b => 0 + b
    | None => 0
    end
  else 0.

Definition frame_total (f : Frame Z) : Z :=
  sum_Z (map (fun e => sum_Z (snd e)) (columns f)).

(** The four decimal digits of a year between 1000 and 9999. *)
Definition digit_char (d : Z) : ascii := ascii_of_N (Z.to_N (48 + d)).

Definition four_digits (y : Z) : string :=
  String (digit_char (y / 1000))
    (String (digit_char (y / 100 mod 10))
       (String (digit_char (y / 10 mod 10))
          (String (digit_char (y mod 10)) EmptyString))).

(* ===================================================================== *)
(** ** The date normaliser *)
(* ===================================================================== *)

Lemma iso_to_datetime_contract : parser_contract iso_to_datetime.
Proof.
  split.
  - intros s e. unfold iso_to_datetime.
    destruct (list_ascii_of_string s) as [|c cs]; [discriminate|].
    destruct (iso_fields (c :: cs)) as [ts|]; [|congruence].
    destruct (valid_date ts && in_timestamp_bounds ts); congruence.
  - intros s ts. unfold iso_to_datetime.
    destruct (list_ascii_of_string s) as [|c cs]; [discriminate|].
    destruct (iso_fields (c :: cs)) as [ts'|]; [|discriminate].
    destruct (valid_date ts' && in_timestamp_bounds ts') eqn:E; [|discriminate].
    intros H. injection H as <-. now apply andb_true_iff in E.
Qed.

Lemma is_leap_century_back (y : Z) :
  cutoff_year < y <= timestamp_max_year ->
  is_leap y = true -> is_leap (y - 100) = true.
Proof.
  unfold cutoff_year, timestamp_max_year, is_leap. intros Hy H.
  apply andb_true_iff in H as [H4 H100].
  apply Z.eqb_eq in H4.
  apply orb_true_iff in H100 as [H100|H400].
  - apply negb_true_iff, Z.eqb_neq in H100.
    apply andb_true_iff; split.
    + apply Z.eqb_eq. Z.to_euclidean_division_equations. lia.
    + apply orb_true_iff; left. apply negb_true_iff, Z.eqb_neq.
      Z.to_euclidean_division_equations. lia.
  - apply Z.eqb_eq in H400. exfalso.
    Z.to_euclidean_division_equations. lia.
Qed.

Lemma days_in_month_century_back (y m : Z) :
  cutoff_year < y <= timestamp_max_year ->
  days_in_month y m <= days_in_month (y - 100) m.
Proof.
  intros Hy. unfold days_in_month.
  destruct (m =? 2); [|lia].
  destruct (is_leap y) eqn:E.
  - now rewrite (is_leap_century_back y Hy E).
  - destruct (is_leap (y - 100)); lia.
Qed.

(** Within the years of a timestamp, moving a date one century back never
    fails. *)
Lemma replace_year_century_back (ts : Timestamp) :
  valid_date ts = true -> in_timestamp_bounds ts = true ->
  cutoff_year < year ts ->
  replace_year ts (year ts - 100) = Return (with_year ts (year ts - 100)).
Proof.
  intros Hv Hb Hy. unfold replace_year.
  unfold in_timestamp_bounds in Hb. apply andb_true_iff in Hb as [_ Hmax].
  apply Z.leb_le in Hmax.
  assert (Hd := days_in_month_century_back (year ts) (month ts) (conj Hy Hmax)).
  unfold valid_date in *. cbn [year month day with_year].
  repeat (apply andb_true_iff in Hv as [Hv ?]).
  replace (1 <=? year ts - 100) with true
    by (symmetry; apply Z.leb_le; unfold cutoff_year in Hy; lia).
  rewrite Hv, H1, H0. cbn.
  replace (day ts <=? days_in_month (year ts - 100) (month ts)) with true; [easy|].
  symmetry. apply Z.leb_le. apply Z.leb_le in H. lia.
Qed.

Lemma validate_date_input_parsed (to_datetime : datetime_parser) (s : string)
    (ts : Timestamp) :
  parser_contract to_datetime ->
  to_datetime s = Return (Some ts) ->
  validate_date_input to_datetime (Some s) =
    Return (Ts (if year ts >? cutoff_year then with_year ts (year ts - 100) else ts)).
Proof.
  intros [_ Hc] Hs. destruct (Hc s ts Hs) as [Hv Hb].
  unfold validate_date_input. rewrite Hs. cbn [bind].
  destruct (year ts >? cutoff_year) eqn:E; [|reflexivity].
  rewrite replace_year_century_back; auto. apply Z.gtb_lt in E. lia.
Qed.

(** C2. [validate_date_input] is total on strings: it returns a value for
    every string, and never raises. A parsed date whose year exceeds 2023
    comes back with the year lowered by 100 and its month, day and time of
    day unchanged; a parsed date with a year up to 2023 comes back as it
    is; NaT comes back as NaT; and a parse failure comes back as the
    missing marker NaN. *)
Theorem validate_date_input_total (to_datetime : datetime_parser) (s : string) :
  parser_contract to_datetime ->
  (exists c, validate_date_input to_datetime (Some s) = Return c) /\
  (forall ts, to_datetime s = Return (Some ts) -> cutoff_year < year ts ->
     validate_date_input to_datetime (Some s) =
       Return (Ts (mkTimestamp (year ts - 100) (month ts) (day ts) (hour ts)
                     (minute ts) (second ts) (microsecond ts) (nanosecond ts)))) /\
  (forall ts, to_datetime s = Return (Some ts) -> year ts <= cutoff_year ->
     validate_date_input to_datetime (Some s) = Return (Ts ts)) /\
  (to_datetime s = Return None ->
     validate_date_input to_datetime (Some s) = Return NaT) /\
  (forall e, to_datetime s = Raise e ->
     validate_date_input to_datetime (Some s) = Return NaN).
Proof.
  intros Hc.
  assert (Hraise : forall e, to_datetime s = Raise e ->
            validate_date_input to_datetime (Some s) = Return NaN).
  { intros e He. unfold validate_date_input. rewrite He.
    destruct Hc as [Hv _]. now rewrite (Hv s e He). }
  assert (Hnat : to_datetime s = Return None ->
            validate_date_input to_datetime (Some s) = Return NaT).
  { intros Hn. unfold validate_date_input. now rewrite Hn. }
  repeat split; auto.
  - destruct (to_datetime s) as [[ts|]|e] eqn:E.
    + eexists. exact (validate_date_input_parsed _ _ _ Hc E).
    + eexists. exact (Hnat eq_refl).
    + eexists. exact (Hraise e eq_refl).
  - intros ts Hs Hy. rewrite (validate_date_input_parsed _ _ _ Hc Hs).
    replace (year ts >? cutoff_year) with true by (symmetry; apply Z.gtb_lt; lia).
    reflexivity.
  - intros ts Hs Hy. rewrite (validate_date_input_parsed _ _ _ Hc Hs).
    replace (year ts >? cutoff_year) with false; [reflexivity|].
    symmetry. rewrite Z.gtb_ltb. apply Z.ltb_ge. lia.
Qed.

Lemma validate_date_input_total_witness :
  parser_contract iso_to_datetime /\
  validate_date_input iso_to_datetime (Some "2069-07-16") =
    Return (Ts (mkTimestamp 1969 7 16 0 0 0 0 0)).
Proof.
  split; [exact iso_to_datetime_contract|].
  exact (proj1 (proj2 (validate_date_input_total iso_to_datetime "2069-07-16"
                         iso_to_datetime_contract))
           (midnight 2069 7 16) eq_refl ltac:(unfold cutoff_year; cbn; lia)).
Defined.

(** C5, as it is worded, fails: a date parsed in 2150 is normalised to
    2050, which is after the cutoff 2023 and after the latest year of the
    sample table. *)
Lemma normalized_year_can_exceed_cutoff :
  ~ (forall to_datetime s ts ts',
       parser_contract to_datetime ->
       to_datetime s = Return (Some ts) ->
       validate_date_input to_datetime (Some s) = Return (Ts ts') ->
       year ts' <= cutoff_year) /\
  ~ (forall to_datetime s ts ts',
       parser_contract to_datetime ->
       to_datetime s = Return (Some ts) ->
       validate_date_input to_datetime (Some s) = Return (Ts ts') ->
       year ts' <= max_allowed_year (app_of sample_csv)).
Proof.
  split; intros H;
    specialize (H iso_to_datetime "2150-01-01" (midnight 2150 1 1)
                  (midnight 2050 1 1) iso_to_datetime_contract eq_refl eq_refl);
    vm_compute in H; now apply H.
Qed.

(** C5, amended. A parsed date is normalised to a date whose year is at
    most the larger of 2023 and the parsed year minus 100: the correction
    is applied once. So a parsed year up to 2123 gives a year up to 2023,
    and a later parsed year gives the parsed year minus 100, above 2023. *)
Theorem normalized_year_bound (to_datetime : datetime_parser) (s : string)
    (ts : Timestamp) :
  parser_contract to_datetime ->
  to_datetime s = Return (Some ts) ->
  exists ts',
    validate_date_input to_datetime (Some s) = Return (Ts ts') /\
    year ts' <= Z.max cutoff_year (year ts - 100) /\
    (year ts <= cutoff_year + 100 -> year ts' <= cutoff_year) /\
    (cutoff_year + 100 < year ts ->
       year ts' = year ts - 100 /\ cutoff_year < year ts').
Proof.
  intros Hc Hs. eexists. split; [exact (validate_date_input_parsed _ _ _ Hc Hs)|].
  destruct (year ts >? cutoff_year) eqn:E.
  - apply Z.gtb_lt in E. cbn [year with_year]. lia.
  - rewrite Z.gtb_ltb in E. apply Z.ltb_ge in E. lia.
Qed.

Lemma normalized_year_bound_witness :
  parser_contract iso_to_datetime /\
  iso_to_datetime "2069-07-16" = Return (Some (midnight 2069 7 16)) /\
  exists ts',
    validate_date_input iso_to_datetime (Some "2069-07-16") = Return (Ts ts') /\
    year ts' <= Z.max cutoff_year (year (midnight 2069 7 16) - 100) /\
    (year (midnight 2069 7 16) <= cutoff_year + 100 -> year ts' <= cutoff_year) /\
    (cutoff_year + 100 < year (midnight 2069 7 16) ->
       year ts' = year (midnight 2069 7 16) - 100 /\ cutoff_year < year ts').
Proof.
  split; [exact iso_to_datetime_contract|]. split; [reflexivity|].
  exact (normalized_year_bound iso_to_datetime "2069-07-16" (midnight 2069 7 16)
           iso_to_datetime_contract eq_refl).
Defined.

(* ===================================================================== *)
(** ** The validators *)
(* ===================================================================== *)

(** C8. [validate_year_range] returns a pair for every pair of integers:
    the pair it was given when both bounds lie in
    [[min_allowed_year, max_allowed_year]], and that interval otherwise;
    it never replaces one bound only. *)
Theorem validate_year_range_total (app : App) (start_year end_year : Z) :
  let lo := min_allowed_year app in
  let hi := max_allowed_year app in
  let inside y := lo <= y <= hi in
  (inside start_year /\ inside end_year ->
     validate_year_range app start_year end_year = (start_year, end_year)) /\
  (~ inside start_year \/ ~ inside end_year ->
     validate_year_range app start_year end_year = (lo, hi)) /\
  (validate_year_range app start_year end_year = (start_year, end_year) \/
   validate_year_range app start_year end_year = (lo, hi)).
Proof.
  cbv zeta. unfold validate_year_range.
  destruct (min_allowed_year app <=? start_year) eqn:E1;
  destruct (start_year <=? max_allowed_year app) eqn:E2;
  destruct (min_allowed_year app <=? end_year) eqn:E3;
  destruct (end_year <=? max_allowed_year app) eqn:E4; cbn;
  repeat match goal with
         | H : (_ <=? _) = true |- _ => apply Z.leb_le in H
         | H : (_ <=? _) = false |- _ => apply Z.leb_gt in H
         end;
  repeat split; auto; intros; try reflexivity; exfalso; lia.
Qed.

(* ===================================================================== *)
(** ** The export handler *)
(* ===================================================================== *)

Lemma ascii_listed (c : ascii) : In c (map ascii_of_nat (seq 0 256)).
Proof.
  rewrite <- (ascii_nat_embedding c). apply in_map, in_seq.
  pose proof (nat_ascii_bounded c). lia.
Qed.

(** A character lowers to a lower case letter exactly when it is that
    letter or its capital. *)
Lemma lower_ascii_letter (c d : ascii) :
  lower_letter d = true ->
  (lower_ascii c =? d)%char = ((c =? d)%char || (c =? upper_ascii d)%char).
Proof.
  assert (H : forallb (fun c =>
                forallb (fun d =>
                  implb (lower_letter d)
                    (Bool.eqb (lower_ascii c =? d)%char
                       ((c =? d)%char || (c =? upper_ascii d)%char)))
                  (map ascii_of_nat (seq 0 256)))
                (map ascii_of_nat (seq 0 256)) = true)
    by (vm_compute; reflexivity).
  rewrite forallb_forall in H. specialize (H c (ascii_listed c)).
  rewrite forallb_forall in H. specialize (H d (ascii_listed d)).
  intros Hd. rewrite Hd in H. cbn [implb] in H. now apply Bool.eqb_prop.
Qed.

Lemma lower_case_variant (fmt target : string) :
  forallb lower_letter (list_ascii_of_string target) = true ->
  (lower fmt =? target)%string = case_variant fmt target.
Proof.
  revert target. induction fmt as [|c fmt IH]; intros [|d target] Ht;
    try reflexivity.
  cbn [list_ascii_of_string forallb] in Ht. apply andb_true_iff in Ht as [Hd Ht].
  cbn [lower case_variant String.eqb].
  now rewrite (lower_ascii_letter c d Hd), (IH target Ht).
Qed.

(** X20. [get_download] reads the format without regard to the case of
    its letters: a format that spells csv, json or excel in any mix of
    upper and lower case gets the whole table [data], the writer of the
    format and its file name; every other format gets [None]. Whatever is
    sent holds the whole table. *)
Theorem get_download_dispatch (app : App) (n_clicks : Z) (fmt : string) :
  (case_variant fmt "csv" = true ->
     get_download app n_clicks fmt =
       Some (mkDownload to_csv (data app) "Moonlanding.csv")) /\
  (case_variant fmt "json" = true ->
     get_download app n_clicks fmt =
       Some (mkDownload to_json (data app) "Moonlanding.json")) /\
  (case_variant fmt "excel" = true ->
     get_download app n_clicks fmt =
       Some (mkDownload to_excel (data app) "Moonlanding.xlsx")) /\
  (case_variant fmt "csv" = false -> case_variant fmt "json" = false ->
   case_variant fmt "excel" = false ->
     get_download app n_clicks fmt = None) /\
  (forall d, get_download app n_clicks fmt = Some d -> frame d = data app).
Proof.
  rewrite <- (lower_case_variant fmt "csv"), <- (lower_case_variant fmt "json"),
    <- (lower_case_variant fmt "excel") by reflexivity.
  unfold get_download, str_in, allowed_file_formats. cbn [existsb].
  destruct (lower fmt =? "csv")%string eqn:E1.
  { apply String.eqb_eq in E1. rewrite E1. cbn.
    repeat split; try discriminate. now intros d [= <-]. }
  destruct (lower fmt =? "json")%string eqn:E2.
  { apply String.eqb_eq in E2. rewrite E2. cbn.
    repeat split; try discriminate. now intros d [= <-]. }
  destruct (lower fmt =? "excel")%string eqn:E3.
  { cbn. repeat split; try discriminate. now intros d [= <-]. }
  cbn. repeat split; try discriminate.
Qed.

Example get_download_mixed_case :
  get_download (mkApp [] 0 0 [] []) 1 "eXcEl" =
    Some (mkDownload to_excel [] "Moonlanding.xlsx").
Proof. reflexivity. Qed.

(* ===================================================================== *)
(** ** Masks, distinct values and counts *)
(* ===================================================================== *)

Lemma select_map_filter {A : Type} (p : A -> bool) (rows : list A) :
  select rows (map p rows) = filter p rows.
Proof.
  induction rows as [|r rows IH]; cbn; [reflexivity|].
  now rewrite IH.
Qed.

(** Indexing with a mask computed row by row: an error when the mask is
    missing somewhere, and the rows where it is true otherwise. *)
Lemma boolean_index_spec {A : Type} (f : A -> option bool) (rows : list A) :
  boolean_index rows (map f rows) =
    if existsb (fun r => is_none (f r)) rows then Raise ValueError
    else Return (filter (fun r => match f r with
                                  | Some true => true
                                  | _ => false
                                  end) rows).
Proof.
  unfold boolean_index.
  replace (existsb is_none (map f rows))
    with (existsb (fun r => is_none (f r)) rows)
    by (induction rows as [|r rows IH]; cbn; [reflexivity|now rewrite IH]).
  destruct (existsb _ rows); [reflexivity|].
  now rewrite map_map, select_map_filter.
Qed.

Lemma boolean_index_operator (df : DataFrame) (country : string) :
  boolean_index df (str_contains_series (map Operator df) country) =
    if operators_present df then Return (filter (operator_contains country) df)
    else Raise ValueError.
Proof.
  unfold str_contains_series. rewrite map_map, boolean_index_spec. cbv beta.
  match goal with
  | |- context [existsb ?f df] =>
      replace (existsb f df) with (negb (operators_present df))
  end.
  - destruct (operators_present df); cbn; [|reflexivity].
    f_equal. apply filter_ext. intros r. unfold operator_contains.
    destruct (Operator r) as [op|]; cbn; [|reflexivity].
    now destruct (str_contains country op).
  - unfold operators_present.
    induction df as [|r df IH]; cbn; [reflexivity|].
    rewrite negb_andb, IH, negb_involutive.
    now destruct (Operator r).
Qed.

Lemma boolean_index_outcome (df : DataFrame) (pat : string) :
  forallb (fun r => negb (is_none (Outcome r))) df = true ->
  boolean_index df (str_contains_series (map Outcome df) pat) =
    Return (filter (outcome_contains pat) df).
Proof.
  intros H. unfold str_contains_series. rewrite map_map, boolean_index_spec.
  cbv beta.
  match goal with
  | |- context [existsb ?f df] => replace (existsb f df) with false
  end.
  - f_equal. apply filter_ext. intros r. unfold outcome_contains.
    destruct (Outcome r) as [o|]; cbn; [|reflexivity].
    now destruct (str_contains pat o).
  - symmetry. induction df as [|r df IH]; cbn in *; [reflexivity|].
    apply andb_true_iff in H as [H1 H2]. rewrite (IH H2).
    now destruct (Outcome r).
Qed.

Lemma boolean_index_year (df : DataFrame) (y0 y1 : Z) :
  boolean_index df (year_mask df y0 y1) =
    Return (filter (year_text_in_range y0 y1) df).
Proof.
  unfold year_mask. rewrite boolean_index_spec. cbv beta.
  replace (existsb _ df) with false.
  - f_equal. apply filter_ext. intros r. unfold year_text_in_range.
    destruct (Launch_Date r); [|reflexivity].
    now destruct (_ && _).
  - symmetry. induction df as [|r df IH]; cbn; [reflexivity|].
    rewrite IH. now destruct (Launch_Date r).
Qed.

Lemma label_eqb_eq (a b : label) : label_eqb a b = true <-> a = b.
Proof.
  destruct a as [a|], b as [b|]; cbn; try easy.
  rewrite String.eqb_eq. split; congruence.
Qed.

Lemma pair_eqb_eq (a b : string * string) : pair_eqb a b = true <-> a = b.
Proof.
  destruct a as [a1 a2], b as [b1 b2]. unfold pair_eqb. cbn.
  rewrite andb_true_iff, !String.eqb_eq. split; [intros []|intros [=]]; now subst.
Qed.

Section Unique.

Context {A : Type} (eqb : A -> A -> bool).
Hypothesis eqb_eq : forall a b, eqb a b = true <-> a = b.

Lemma existsb_eqb_In (x : A) (l : list A) :
  existsb (eqb x) l = true <-> In x l.
Proof.
  rewrite existsb_exists. split.
  - intros [y [Hy E]]. apply eqb_eq in E. now subst.
  - intros H. exists x. split; [assumption|]. now apply eqb_eq.
Qed.

Lemma unique_from_In (seen l : list A) (x : A) :
  In x (unique_from eqb seen l) <-> In x l /\ ~ In x seen.
Proof.
  revert seen. induction l as [|y l IH]; intros seen; cbn; [tauto|].
  destruct (existsb (eqb y) seen) eqn:E.
  - apply existsb_eqb_In in E. rewrite IH. split.
    + tauto.
    + intros [[->|H] Hn]; tauto.
  - assert (Hy : ~ In y seen).
    { intros H. apply existsb_eqb_In in H. congruence. }
    cbn. rewrite IH. cbn. split.
    + intros [->|[H1 H2]]; tauto.
    + intros [[->|H] Hn]; [tauto|].
      destruct (eqb y x) eqn:Eyx.
      * apply eqb_eq in Eyx. tauto.
      * right. split; [assumption|]. intros [->|H']; [|tauto].
        assert (eqb x x = true) by now apply eqb_eq. congruence.
Qed.

Lemma unique_from_NoDup (seen l : list A) : NoDup (unique_from eqb seen l).
Proof.
  revert seen. induction l as [|y l IH]; intros seen; cbn; [constructor|].
  destruct (existsb (eqb y) seen); [apply IH|].
  constructor; [|apply IH].
  rewrite unique_from_In. cbn. tauto.
Qed.

Lemma unique_In (l : list A) (x : A) : In x (unique eqb l) <-> In x l.
Proof. unfold unique. rewrite unique_from_In. cbn. tauto. Qed.

Lemma unique_NoDup (l : list A) : NoDup (unique eqb l).
Proof. apply unique_from_NoDup. Qed.

Lemma unique_head (x : A) (l : list A) :
  exists rest, unique eqb (x :: l) = x :: rest.
Proof. unfold unique. cbn. eauto. Qed.

End Unique.

Lemma unique_from_map_Some (seen l : list string) :
  unique_from label_eqb (map Some seen) (map Some l) =
    map Some (unique_from String.eqb seen l).
Proof.
  revert seen. induction l as [|x l IH]; intros seen; cbn; [reflexivity|].
  replace (existsb (label_eqb (Some x)) (map Some seen))
    with (existsb (String.eqb x) seen)
    by (induction seen as [|y seen IHs]; cbn; [reflexivity|now rewrite IHs]).
  destruct (existsb (String.eqb x) seen); [apply IH|].
  cbn. f_equal. apply (IH (x :: seen)).
Qed.

Lemma mapM_first_word_of (l : list string) :
  mapM first_word_of (map Some l) = Return (map first_word l).
Proof.
  induction l as [|x l IH]; cbn; [reflexivity|]. now rewrite IH.
Qed.

(* ===================================================================== *)
(** ** What module initialisation establishes *)
(* ===================================================================== *)

Lemma dropna_In {A : Type} (l : list (option A)) (x : A) :
  In x (dropna l) <-> In (Some x) l.
Proof.
  induction l as [|[a|] l IH]; cbn; [tauto| |].
  - rewrite IH. split; [intros [->|H]; auto|intros [[=->]|H]; auto].
  - rewrite IH. split; [auto|intros [[=]|H]; auto].
Qed.

Lemma extremum_In (better : Timestamp -> Timestamp -> bool) (l : list Timestamp)
    (best : Timestamp) :
  In (extremum better best l) (best :: l).
Proof.
  revert best. induction l as [|t l IH]; intros best; cbn; [auto|].
  destruct (IH (if better t best then t else best)) as [H|H]; [|auto].
  destruct (better t best); auto.
Qed.

Lemma series_min_In (col : list (option Timestamp)) (t : Timestamp) :
  series_min col = Some t -> In (Some t) col.
Proof.
  unfold series_min. intros H. apply dropna_In.
  destruct (dropna col) as [|t0 l]; [discriminate|].
  injection H as <-. apply extremum_In.
Qed.

Lemma series_max_In (col : list (option Timestamp)) (t : Timestamp) :
  series_max col = Some t -> In (Some t) col.
Proof.
  unfold series_max. intros H. apply dropna_In.
  destruct (dropna col) as [|t0 l]; [discriminate|].
  injection H as <-. apply extremum_In.
Qed.

Lemma outcomes_present_filter (p : Mission -> bool) (df : DataFrame) :
  outcomes_present df = true -> outcomes_present (filter p df) = true.
Proof.
  unfold outcomes_present. rewrite !forallb_forall.
  intros H r Hr. apply filter_In in Hr. now apply H.
Qed.

Lemma outcomes_present_map (df : DataFrame) :
  outcomes_present df = true ->
  map Outcome df = map Some (dropna (map Outcome df)).
Proof.
  unfold outcomes_present.
  induction df as [|r df IH]; cbn; [reflexivity|].
  intros H. apply andb_true_iff in H as [H1 H2].
  destruct (Outcome r); [|discriminate]. cbn. now rewrite <- IH.
Qed.

(** What a start with year bounds went through. *)
Lemma load_serving (to_datetime : datetime_parser) (csv : list CsvRow) (app : App) :
  load to_datetime csv = Return (Serving app) ->
  exists lo hi,
    mapM (normalize_row to_datetime) csv = Return (data app) /\
    series_min (map Launch_Date (data app)) = Some lo /\
    series_max (map Launch_Date (data app)) = Some hi /\
    min_allowed_year app = year lo /\ max_allowed_year app = year hi /\
    boolean_index (data app) (str_contains_series (map Outcome (data app)) "fail")
      = Return (fail app) /\
    mapM first_word_of (unique label_eqb (map Outcome (fail app)))
      = Return (allowed_fails app).
Proof.
  unfold load. intros H.
  destruct (mapM (fun r => validate_date_input to_datetime (Launch_Date r)) csv)
    as [cells|]; [|discriminate].
  cbn [bind] in H.
  destruct (mapM (normalize_row to_datetime) csv) as [df|]; [|discriminate].
  cbn [bind] in H. unfold year_of_extreme in H.
  destruct (is_datetime_column cells); [|discriminate]. cbn [bind] in H.
  destruct (boolean_index df _) as [fl|] eqn:Efl; [|discriminate]. cbn [bind] in H.
  destruct (mapM first_word_of _) as [af|] eqn:Eaf; [|discriminate]. cbn [bind] in H.
  destruct (series_min (map Launch_Date df)) as [lo|] eqn:Elo;
    destruct (series_max (map Launch_Date df)) as [hi|] eqn:Ehi;
    cbn [option_map] in H; try discriminate.
  injection H as <-. cbn. exists lo, hi. repeat split; assumption.
Qed.

(** The globals after a start with year bounds: the table has no empty
    Outcome cell, [fail] holds its rows whose Outcome contains "fail",
    [allowed_fails] the first words of their distinct outcomes in order of
    first appearance, and the two year bounds are years of dates of the
    table. *)
Lemma load_inv (to_datetime : datetime_parser) (csv : list CsvRow) (app : App) :
  load to_datetime csv = Return (Serving app) ->
  mapM (normalize_row to_datetime) csv = Return (data app) /\
  outcomes_present (data app) = true /\
  fail app = filter (outcome_contains "fail") (data app) /\
  allowed_fails app =
    map first_word (unique String.eqb (dropna (map Outcome (fail app)))) /\
  (exists lo, In (Some lo) (map Launch_Date (data app)) /\
              min_allowed_year app = year lo) /\
  (exists hi, In (Some hi) (map Launch_Date (data app)) /\
              max_allowed_year app = year hi).
Proof.
  intros Hload.
  destruct (load_serving _ _ _ Hload)
    as (lo & hi & Hdata & Hlo & Hhi & Hmin & Hmax & Hfl & Haf).
  assert (Hout : outcomes_present (data app) = true).
  { unfold str_contains_series in Hfl. rewrite map_map, boolean_index_spec in Hfl.
    cbv beta in Hfl. unfold outcomes_present.
    match type of Hfl with
    | context [existsb ?f (data app)] => destruct (existsb f (data app)) eqn:E
    end; [discriminate|].
    apply forallb_forall. intros r Hr.
    destruct (Outcome r) eqn:Er; [reflexivity|]. exfalso.
    apply Bool.not_true_iff_false in E. apply E.
    apply existsb_exists. exists r. split; [assumption|]. now rewrite Er. }
  rewrite (boolean_index_outcome (data app) "fail" Hout) in Hfl.
  injection Hfl as Hfl.
  assert (Hfo : outcomes_present (fail app) = true)
    by (rewrite <- Hfl; now apply outcomes_present_filter).
  rewrite (outcomes_present_map (fail app) Hfo) in Haf.
  unfold unique in Haf. rewrite (unique_from_map_Some []) in Haf.
  rewrite mapM_first_word_of in Haf. injection Haf as Haf.
  repeat split; auto.
  - exists lo. split; [now apply series_min_In|assumption].
  - exists hi. split; [now apply series_max_In|assumption].
Qed.

(** C9. The fallback of [validate_fail_input] reads [allowed_fails[0]]
    without a guard: on a table without a failed mission [allowed_fails]
    is empty and the validator raises [IndexError], where the
    specification promises a validator that never raises. *)
Lemma validate_fail_input_raises :
  load iso_to_datetime csv_without_failure = Return (Serving (app_of csv_without_failure)) /\
  allowed_fails (app_of csv_without_failure) = [] /\
  validate_fail_input (app_of csv_without_failure) "Launch" = Raise IndexError.
Proof. repeat split. Qed.

(** X18. After a start with year bounds, [validate_fail_input] returns a
    member of [allowed_fails] unchanged. For any other input it returns the
    first word of the Outcome of the first row of the table whose Outcome
    contains "fail", that is the first prefix in order of appearance; when
    the table has no such row it raises [IndexError]. *)
Theorem validate_fail_input_spec (to_datetime : datetime_parser)
    (csv : list CsvRow) (app : App) (value : string) :
  load to_datetime csv = Return (Serving app) ->
  (In value (allowed_fails app) ->
     validate_fail_input app value = Return value) /\
  (~ In value (allowed_fails app) ->
     forall r, find (outcome_contains "fail") (data app) = Some r ->
       exists o, Outcome r = Some o /\
                 validate_fail_input app value = Return (first_word o)) /\
  (find (outcome_contains "fail") (data app) = None ->
     validate_fail_input app value = Raise IndexError).
Proof.
  intros Hload.
  destruct (load_inv _ _ _ Hload) as (_ & _ & Hfail & Hallowed & _).
  unfold validate_fail_input, str_in.
  assert (Hmem : existsb (String.eqb value) (allowed_fails app) = true <->
                 In value (allowed_fails app))
    by (apply existsb_eqb_In, String.eqb_eq).
  repeat split.
  - intros H. apply Hmem in H. now rewrite H.
  - intros Hn r Hr.
    destruct (existsb (String.eqb value) (allowed_fails app)) eqn:E;
      [exfalso; apply Hn, Hmem; reflexivity|].
    rewrite Hallowed, Hfail. revert Hr. generalize (data app) as df. clear.
    induction df as [|x df IH]; [discriminate|]. cbn [find filter].
    destruct (outcome_contains "fail" x) eqn:Ex; [|exact IH].
    intros [= ->]. unfold outcome_contains in Ex.
    destruct (Outcome r) as [o|] eqn:Eo; [|discriminate].
    exists o. split; [reflexivity|]. cbn [map dropna]. rewrite Eo.
    destruct (unique_head String.eqb o
                (dropna (map Outcome (filter (outcome_contains "fail") df))))
      as [rest ->].
    reflexivity.
  - intros Hnone.
    assert (Hempty : fail app = []).
    { rewrite Hfail. revert Hnone. generalize (data app) as df. clear.
      induction df as [|x df IH]; [reflexivity|]. cbn [find filter].
      destruct (outcome_contains "fail" x); [discriminate|exact IH]. }
    rewrite Hallowed, Hempty. reflexivity.
Qed.

Lemma validate_fail_input_spec_witness :
  load iso_to_datetime sample_csv = Return (Serving (app_of sample_csv)) /\
  validate_fail_input (app_of sample_csv) "Partial" = Return "Partial" /\
  validate_fail_input (app_of sample_csv) "Engine" = Return "Spacecraft".
Proof.
  split; [reflexivity|]. split.
  - apply (proj1 (validate_fail_input_spec iso_to_datetime sample_csv
                    (app_of sample_csv) "Partial" eq_refl)).
    vm_compute. tauto.
  - destruct (proj1 (proj2 (validate_fail_input_spec iso_to_datetime sample_csv
                              (app_of sample_csv) "Engine" eq_refl))
                (fun H : In "Engine" (allowed_fails (app_of sample_csv)) =>
                   ltac:(vm_compute in H; intuition discriminate))
                _ eq_refl) as (o & Ho & Hv).
    vm_compute in Ho. injection Ho as <-. exact Hv.
Defined.

(* ===================================================================== *)
(** ** The bar chart of failures per country *)
(* ===================================================================== *)

Lemma count_per_country_present (choosen_fail : DataFrame) (keys : list string)
    (cd : dict) :
  operators_present choosen_fail = true ->
  count_per_country choosen_fail keys cd =
    Return (fold_left
              (fun d c => dict_set d c (count_rows (operator_contains c) choosen_fail))
              keys cd).
Proof.
  intros Hp. revert cd. induction keys as [|c keys IH]; intros cd; cbn; [reflexivity|].
  rewrite boolean_index_operator, Hp. cbn [bind]. apply IH.
Qed.

Lemma count_per_country_missing (choosen_fail : DataFrame) (c : string)
    (keys : list string) (cd : dict) :
  operators_present choosen_fail = false ->
  count_per_country choosen_fail (c :: keys) cd = Raise ValueError.
Proof.
  intros Hp. cbn. now rewrite boolean_index_operator, Hp.
Qed.

(** The dict of the handler after the loop: one entry per allow-listed
    name, in the order of the list. *)
Lemma country_dict_filled (g : string -> Z) :
  let cd := fold_left (fun d c => dict_set d c 0) allowed_countries [] in
  fold_left (fun d c => dict_set d c (g c)) (map fst cd) cd =
    map (fun c => (c, g c)) allowed_countries.
Proof. reflexivity. Qed.

Lemma boolean_index_matcher (df : DataFrame) (m : string -> bool) :
  outcomes_present df = true ->
  boolean_index df (map (option_map m) (map Outcome df)) =
    Return (filter (outcome_matches m) df).
Proof.
  intros H. rewrite map_map, boolean_index_spec. cbv beta.
  match goal with
  | |- context [existsb ?f df] => replace (existsb f df) with false
  end.
  - f_equal. apply filter_ext. intros r. unfold outcome_matches.
    destruct (Outcome r) as [o|]; cbn; [|reflexivity].
    now destruct (m o).
  - symmetry. unfold outcomes_present in H.
    induction df as [|r df IH]; cbn in *; [reflexivity|].
    apply andb_true_iff in H as [H1 H2]. rewrite (IH H2).
    now destruct (Outcome r).
Qed.

(** What [get_bar_chart] does once the category is validated and compiled:
    it raises when a selected failure record has no Operator, and otherwise
    draws one bar per allow-listed name. *)
Lemma get_bar_chart_unfold (regex : regex_engine) (app : App)
    (entered_fail category : string) (m : string -> bool) :
  validate_fail_input app entered_fail = Return category ->
  regex category = Return m ->
  outcomes_present (fail app) = true ->
  let rows := filter (outcome_matches m) (fail app) in
  get_bar_chart regex app entered_fail =
    if operators_present rows
    then Return (create_bar
                   (map (fun c => (c, count_rows (operator_contains c) rows))
                        allowed_countries))
    else Raise ValueError.
Proof.
  intros Hv Hm Hout rows. unfold get_bar_chart, str_contains_regex.
  rewrite Hv. cbn [bind]. rewrite Hm. cbn [bind].
  rewrite (boolean_index_matcher _ _ Hout). cbn [bind]. fold rows.
  destruct (operators_present rows) eqn:Hp.
  - rewrite (count_per_country_present _ _ _ Hp). cbn [bind].
    now rewrite (country_dict_filled (fun c => count_rows (operator_contains c) rows)).
  - cbn [fold_left allowed_countries map]. cbn.
    now rewrite boolean_index_operator, Hp.
Qed.

Lemma load_fail (to_datetime : datetime_parser) (csv : list CsvRow) (app : App)
    (m : string -> bool) :
  load to_datetime csv = Return (Serving app) ->
  outcomes_present (fail app) = true /\
  filter (outcome_matches m) (fail app) = selected_failures (data app) m.
Proof.
  intros Hload. destruct (load_inv _ _ _ Hload) as (_ & Hout & Hfail & _).
  split; [rewrite Hfail; now apply outcomes_present_filter|].
  unfold selected_failures. now rewrite Hfail.
Qed.

Lemma get_bar_chart_selected (regex : regex_engine) (to_datetime : datetime_parser)
    (csv : list CsvRow) (app : App) (entered_fail category : string)
    (m : string -> bool) :
  load to_datetime csv = Return (Serving app) ->
  validate_fail_input app entered_fail = Return category ->
  regex category = Return m ->
  get_bar_chart regex app entered_fail =
    if operators_present (selected_failures (data app) m)
    then Return (create_bar
                   (map (fun c => (c, count_rows (operator_contains c)
                                        (selected_failures (data app) m)))
                        allowed_countries))
    else Raise ValueError.
Proof.
  intros Hload Hv Hm. destruct (load_fail _ _ _ m Hload) as [Hout Hrows].
  pose proof (get_bar_chart_unfold regex app entered_fail category m Hv Hm Hout)
    as Hbar.
  cbv zeta in Hbar. now rewrite Hrows in Hbar.
Qed.

Lemma selected_failures_plain (df : DataFrame) (m : string -> bool) (category : string) :
  (forall s, m s = str_contains category s) ->
  selected_failures df m = failure_records df category.
Proof.
  intros H. unfold selected_failures, failure_records. apply filter_ext.
  intros r. unfold outcome_matches, outcome_contains. now destruct (Outcome r).
Qed.

Lemma count_rows_cons {A : Type} (p : A -> bool) (x : A) (l : list A) :
  count_rows p (x :: l) = (if p x then 1 else 0) + count_rows p l.
Proof.
  unfold count_rows. cbn. destruct (p x); cbn [List.length]; lia.
Qed.

Lemma count_rows_nonneg {A : Type} (p : A -> bool) (l : list A) :
  0 <= count_rows p l.
Proof. unfold count_rows. lia. Qed.

Lemma sum_Z_map_add {A : Type} (f g : A -> Z) (l : list A) :
  sum_Z (map (fun x => f x + g x) l) = sum_Z (map f l) + sum_Z (map g l).
Proof.
  induction l as [|x l IH]; cbn; [reflexivity|]. unfold sum_Z in *. cbn. lia.
Qed.

Lemma sum_Z_indicator {A : Type} (p : A -> bool) (l : list A) :
  sum_Z (map (fun x => if p x then 1 else 0) l) = count_rows p l.
Proof.
  induction l as [|x l IH]; [reflexivity|].
  rewrite count_rows_cons, <- IH. reflexivity.
Qed.

(** Counting a relation by columns or by rows gives the same total. *)
Lemma sum_count_exchange {A B : Type} (p : A -> B -> bool) (cs : list A)
    (rows : list B) :
  sum_Z (map (fun c => count_rows (p c) rows) cs) =
  sum_Z (map (fun r => count_rows (fun c => p c r) cs) rows).
Proof.
  induction rows as [|r rows IH].
  - cbn [map]. induction cs as [|c cs IHc]; [reflexivity|].
    cbn [map]. change (sum_Z (?x :: ?l)) with (x + sum_Z l). now rewrite IHc.
  - cbn [map]. change (sum_Z (?x :: ?l)) with (x + sum_Z l). rewrite <- IH.
    rewrite <- sum_Z_indicator, <- sum_Z_map_add.
    f_equal. apply map_ext. intros c. apply count_rows_cons.
Qed.

(** A sum of non-negative counts against the number of non-zero ones. *)
Lemma sum_at_least_positive {A : Type} (m : A -> Z) (rows : list A) :
  (forall r, 0 <= m r) ->
  count_rows (fun r => 1 <=? m r) rows <= sum_Z (map m rows) /\
  (sum_Z (map m rows) = count_rows (fun r => 1 <=? m r) rows <->
   forall r, In r rows -> m r <= 1).
Proof.
  intros Hm. induction rows as [|r rows [IH1 IH2]].
  - cbn. split; [reflexivity|]. split; [intros _ r []|reflexivity].
  - rewrite count_rows_cons. cbn [map].
    change (sum_Z (?x :: ?l)) with (x + sum_Z l).
    specialize (Hm r).
    destruct (1 <=? m r) eqn:E;
      [apply Z.leb_le in E|apply Z.leb_gt in E]; (split; [lia|]); split.
    + intros H r' [<-|Hr']; [lia|]. apply IH2; [lia|assumption].
    + intros H. assert (m r <= 1) by (apply H; now left).
      assert (sum_Z (map m rows) = count_rows (fun r => 1 <=? m r) rows)
        by (apply IH2; intros; apply H; now right).
      lia.
    + intros H r' [<-|Hr']; [lia|]. apply IH2; [lia|assumption].
    + intros H.
      assert (sum_Z (map m rows) = count_rows (fun r => 1 <=? m r) rows)
        by (apply IH2; intros; apply H; now right).
      lia.
Qed.

(** C6, as it is worded, fails: a failure record whose Operator names no
    allow-listed country adds to no bar, so the bars can sum to less than
    the number of selected failure records. *)
Lemma bar_sum_below_record_count :
  load iso_to_datetime csv_other_operator =
    Return (Serving (app_of csv_other_operator)) /\
  validate_fail_input (app_of csv_other_operator) "Launch" = Return "Launch" /\
  exists bar,
    get_bar_chart literal_regex (app_of csv_other_operator) "Launch" = Return bar /\
    sum_Z (bar_y bar) = 0 /\
    count_rows (fun _ => true)
      (failure_records (data (app_of csv_other_operator)) "Launch") = 1.
Proof. repeat split. eexists. repeat split. Qed.

(** C6, amended. On a table with some Operator filled in (so that the
    column holds text), for a validated category that compiles to the
    matcher [m], when every selected failure record has an Operator,
    [get_bar_chart] draws one bar per allow-listed name, zero counts
    included, whose height is the number of selected failure records
    (Outcome containing "fail" and matched by the category) whose Operator
    contains the name. The heights sum to the number of (record, name)
    matches, which is at least the number of selected records that match
    some name, with equality exactly when no selected record matches more
    than one name; it is at least the number of selected records when each
    of them matches some name. For a category that matches where it occurs
    the selected records are those whose Outcome contains it. *)
Theorem get_bar_chart_counts (regex : regex_engine) (to_datetime : datetime_parser)
    (csv : list CsvRow) (app : App) (entered_fail category : string)
    (m : string -> bool) :
  load to_datetime csv = Return (Serving app) ->
  (exists r o, In r (data app) /\ Operator r = Some o) ->
  validate_fail_input app entered_fail = Return category ->
  regex category = Return m ->
  operators_present (selected_failures (data app) m) = true ->
  let rows := selected_failures (data app) m in
  exists bar,
    get_bar_chart regex app entered_fail = Return bar /\
    bar_x bar = allowed_countries /\
    bar_y bar = map (fun c => count_rows (operator_contains c) rows) allowed_countries /\
    sum_Z (bar_y bar) = sum_Z (map matched_countries rows) /\
    count_rows (fun r => 1 <=? matched_countries r) rows <= sum_Z (bar_y bar) /\
    (sum_Z (bar_y bar) = count_rows (fun r => 1 <=? matched_countries r) rows <->
     forall r, In r rows -> matched_countries r <= 1) /\
    ((forall r, In r rows -> 1 <= matched_countries r) ->
     count_rows (fun _ => true) rows <= sum_Z (bar_y bar)) /\
    ((forall s, m s = str_contains category s) ->
     rows = failure_records (data app) category).
Proof.
  intros Hload _ Hv Hm Hp rows.
  destruct (load_fail _ _ _ m Hload) as [Hout Hrows].
  pose proof (get_bar_chart_unfold regex app entered_fail category m Hv Hm Hout)
    as Hbar.
  cbv zeta in Hbar. rewrite Hrows in Hbar. fold rows in Hp, Hbar.
  rewrite Hp in Hbar.
  eexists. split; [exact Hbar|].
  cbn [create_bar bar_x bar_y]. rewrite !map_map. cbn [fst snd].
  assert (Hsum : sum_Z (map (fun c => count_rows (operator_contains c) rows)
                          allowed_countries) =
                 sum_Z (map matched_countries rows))
    by apply (sum_count_exchange operator_contains).
  destruct (sum_at_least_positive matched_countries rows) as [Hle Heq].
  { intros r. apply count_rows_nonneg. }
  split; [apply map_id|]. split; [reflexivity|]. split; [exact Hsum|].
  rewrite Hsum. split; [exact Hle|]. split; [exact Heq|]. split.
  - intros Hall.
    replace (count_rows (fun _ => true) rows)
      with (count_rows (fun r => 1 <=? matched_countries r) rows); [exact Hle|].
    unfold count_rows. f_equal. f_equal. apply filter_ext_in.
    intros r Hr. apply Z.leb_le. now apply Hall.
  - apply selected_failures_plain.
Qed.

Lemma get_bar_chart_counts_witness :
  load iso_to_datetime sample_csv = Return (Serving (app_of sample_csv)) /\
  (exists r o, In r (data (app_of sample_csv)) /\ Operator r = Some o) /\
  validate_fail_input (app_of sample_csv) "Spacecraft" = Return "Spacecraft" /\
  literal_regex "Spacecraft" = Return (str_contains "Spacecraft") /\
  exists bar,
    get_bar_chart literal_regex (app_of sample_csv) "Spacecraft" = Return bar /\
    bar_x bar = allowed_countries /\
    sum_Z (bar_y bar) = 3.
Proof.
  assert (Htext : exists r o,
            In r (data (app_of sample_csv)) /\ Operator r = Some o)
    by (eexists _, "Soviet Union"; split; [left; reflexivity|reflexivity]).
  split; [reflexivity|]. split; [exact Htext|].
  split; [reflexivity|]. split; [reflexivity|].
  destruct (get_bar_chart_counts literal_regex iso_to_datetime sample_csv
              (app_of sample_csv) "Spacecraft" "Spacecraft"
              (str_contains "Spacecraft") eq_refl Htext eq_refl eq_refl eq_refl)
    as (bar & Hbar & Hx & Hy & _).
  exists bar. split; [exact Hbar|]. split; [exact Hx|].
  rewrite Hy. reflexivity.
Defined.

(** C10. After a start with year bounds, every bar chart [get_bar_chart]
    returns has a first bar labelled with the sentinel "All Countries",
    followed by the twelve country bars; its height is the number of
    selected failure records (Outcome containing "fail" and matched by the
    validated category) whose Operator contains the text "All Countries".
    The chart is returned whenever some Operator of the table is filled in
    (so that the column holds text), the category validates and compiles,
    and every selected failure record has an Operator. *)
Theorem get_bar_chart_sentinel_bar (regex : regex_engine)
    (to_datetime : datetime_parser) (csv : list CsvRow) (app : App)
    (entered_fail : string) :
  load to_datetime csv = Return (Serving app) ->
  (forall bar,
     get_bar_chart regex app entered_fail = Return bar ->
     exists category m countries heights,
       validate_fail_input app entered_fail = Return category /\
       regex category = Return m /\
       bar_x bar = "All Countries" :: countries /\
       List.length countries = 12%nat /\
       ~ In "All Countries" countries /\
       bar_y bar =
         count_rows (operator_contains "All Countries")
           (selected_failures (data app) m) :: heights /\
       List.length heights = 12%nat) /\
  (forall category m,
     (exists r o, In r (data app) /\ Operator r = Some o) ->
     validate_fail_input app entered_fail = Return category ->
     regex category = Return m ->
     operators_present (selected_failures (data app) m) = true ->
     exists bar, get_bar_chart regex app entered_fail = Return bar).
Proof.
  intros Hload.
  split.
  - intros bar Hbar.
    destruct (validate_fail_input app entered_fail) as [category|e] eqn:Hv;
      [|unfold get_bar_chart in Hbar; rewrite Hv in Hbar; discriminate].
    destruct (regex category) as [m|e] eqn:Hm;
      [|unfold get_bar_chart, str_contains_regex in Hbar;
        rewrite Hv in Hbar; cbn [bind] in Hbar; rewrite Hm in Hbar; discriminate].
    rewrite (get_bar_chart_selected regex _ _ _ _ _ _ Hload Hv Hm) in Hbar.
    destruct (operators_present (selected_failures (data app) m)); [|discriminate].
    injection Hbar as <-.
    eexists category, m, _, _. split; [reflexivity|]. split; [exact Hm|].
    cbn [create_bar bar_x bar_y allowed_countries map fst snd].
    split; [reflexivity|]. split; [reflexivity|].
    split; [|split; reflexivity].
    cbn. intuition discriminate.
  - intros category m _ Hv Hm Hp.
    rewrite (get_bar_chart_selected regex _ _ _ _ _ _ Hload Hv Hm), Hp. eauto.
Qed.

Lemma get_bar_chart_sentinel_bar_witness :
  load iso_to_datetime sample_csv = Return (Serving (app_of sample_csv)) /\
  exists bar,
    get_bar_chart literal_regex (app_of sample_csv) "Engine" = Return bar /\
    List.hd_error (bar_x bar) = Some "All Countries".
Proof.
  split; [reflexivity|].
  destruct (get_bar_chart_sentinel_bar literal_regex iso_to_datetime sample_csv
              (app_of sample_csv) "Engine" eq_refl) as [Hshape Hdraw].
  assert (Htext : exists r o,
            In r (data (app_of sample_csv)) /\ Operator r = Some o)
    by (eexists _, "Soviet Union"; split; [left; reflexivity|reflexivity]).
  destruct (Hdraw "Spacecraft" (str_contains "Spacecraft") Htext
              eq_refl eq_refl eq_refl) as [bar Hbar].
  exists bar. split; [exact Hbar|].
  destruct (Hshape bar Hbar) as (c & m & cs & hs & _ & _ & Hx & _).
  now rewrite Hx.
Defined.

(* ===================================================================== *)
(** ** Years as text *)
(* ===================================================================== *)

Lemma py_str_four_digits_table :
  forallb (fun y => String.eqb (py_str y) (four_digits y))
          (map (fun k => 1000 + Z.of_nat k) (seq 0 (Z.to_nat 9000))) = true.
Proof. vm_compute. reflexivity. Qed.

(** [str] of a year between 1000 and 9999 is its four digits. *)
Lemma py_str_four_digits (y : Z) :
  1000 <= y <= 9999 -> py_str y = four_digits y.
Proof.
  intros Hy. apply String.eqb_eq.
  apply (proj1 (forallb_forall _ _) py_str_four_digits_table).
  apply in_map_iff. exists (Z.to_nat (y - 1000)). split; [lia|].
  apply in_seq. lia.
Qed.

Lemma digit_char_compare (a b : Z) :
  0 <= a <= 9 -> 0 <= b <= 9 ->
  Ascii.compare (digit_char a) (digit_char b) = (a ?= b).
Proof.
  intros Ha Hb. unfold Ascii.compare, digit_char.
  rewrite !N_ascii_embedding by lia.
  rewrite Z2N.inj_compare by lia. apply Z.add_compare_mono_l.
Qed.

(** Four-digit years compare as text the way they compare as numbers. *)
Lemma four_digits_compare (a b : Z) :
  1000 <= a <= 9999 -> 1000 <= b <= 9999 ->
  String.compare (four_digits a) (four_digits b) = (a ?= b).
Proof.
  intros Ha Hb. unfold four_digits. cbn [String.compare].
  rewrite !digit_char_compare
    by (Z.to_euclidean_division_equations; lia).
  destruct (Z.compare_spec (a / 1000) (b / 1000)) as [E3|E3|E3];
    [|symmetry; apply Z.compare_lt_iff; Z.to_euclidean_division_equations; lia
     |symmetry; apply Z.compare_gt_iff; Z.to_euclidean_division_equations; lia].
  destruct (Z.compare_spec (a / 100 mod 10) (b / 100 mod 10)) as [E2|E2|E2];
    [|symmetry; apply Z.compare_lt_iff; Z.to_euclidean_division_equations; lia
     |symmetry; apply Z.compare_gt_iff; Z.to_euclidean_division_equations; lia].
  destruct (Z.compare_spec (a / 10 mod 10) (b / 10 mod 10)) as [E1|E1|E1];
    [|symmetry; apply Z.compare_lt_iff; Z.to_euclidean_division_equations; lia
     |symmetry; apply Z.compare_gt_iff; Z.to_euclidean_division_equations; lia].
  destruct (Z.compare_spec (a mod 10) (b mod 10)) as [E0|E0|E0];
    symmetry;
    [apply Z.compare_eq_iff|apply Z.compare_lt_iff|apply Z.compare_gt_iff];
    Z.to_euclidean_division_equations; lia.
Qed.

Lemma py_str_leb (a b : Z) :
  1000 <= a <= 9999 -> 1000 <= b <= 9999 ->
  String.leb (py_str a) (py_str b) = (a <=? b).
Proof.
  intros Ha Hb. rewrite !py_str_four_digits by assumption.
  unfold String.leb, Z.leb. rewrite four_digits_compare by assumption.
  reflexivity.
Qed.

(* ===================================================================== *)
(** ** The charts-by-country handler *)
(* ===================================================================== *)

Lemma charts_of_year_df_unfold (app : App) (country : string) (year_df : DataFrame) :
  charts_of_year_df app country year_df =
    if (country =? "All Countries")%string
    then charts_for (data app) year_df "Total Mission Outcomes"
           "Launch Date vs. Number of Launches in Total"
    else if operators_present year_df
    then charts_for (data app) (filter (operator_contains country) year_df)
           ("Mission outcomes for " ++ country)
           ("Launch Date vs. Number of Launches for " ++ country)
    else Raise ValueError.
Proof.
  unfold charts_of_year_df, charts_for.
  destruct (country =? "All Countries")%string; [reflexivity|].
  rewrite boolean_index_operator.
  destruct (operators_present year_df); reflexivity.
Qed.

Lemma get_charts_by_country_unfold (app : App) (entered_country : string)
    (entered_years : Z * Z) :
  let years := validate_year_range app (fst entered_years) (snd entered_years) in
  get_charts_by_country app entered_country entered_years =
    charts_of_year_df app (validate_country_input entered_country)
      (filter (year_text_in_range (fst years) (snd years)) (data app)).
Proof.
  cbv zeta. unfold get_charts_by_country, guarded_year_step.
  now rewrite boolean_index_year.
Qed.

Lemma operators_present_false (df : DataFrame) :
  operators_present df = false <-> exists r, In r df /\ Operator r = None.
Proof.
  unfold operators_present. split.
  - intros H. induction df as [|r df IH]; [discriminate|].
    cbn in H. apply andb_false_iff in H as [H|H].
    + exists r. split; [now left|]. now destruct (Operator r).
    + destruct (IH H) as (r' & Hr' & Ho). exists r'. split; [now right|assumption].
  - intros (r & Hr & Ho). apply Bool.not_true_iff_false. intros H.
    rewrite forallb_forall in H. specialize (H r Hr). now rewrite Ho in H.
Qed.

(** C4. The country filtering and the chart builders come after the
    [try]: with a country selected, a row of the year range without
    Operator makes the handler raise [ValueError], where the specification
    promises the generic message. *)
Lemma get_charts_by_country_raises :
  load iso_to_datetime csv_missing_operator = Return (Serving (app_of csv_missing_operator)) /\
  get_charts_by_country (app_of csv_missing_operator) "United States" (1969, 1972)
    = Raise ValueError.
Proof. split; reflexivity. Qed.

Lemma validate_date_input_year (to_datetime : datetime_parser)
    (date : option string) (ts : Timestamp) :
  parser_contract to_datetime ->
  validate_date_input to_datetime date = Return (Ts ts) ->
  timestamp_min_year <= year ts <= timestamp_max_year.
Proof.
  intros Hc H. destruct date as [s|]; [|discriminate].
  destruct (to_datetime s) as [[ts0|]|e] eqn:E.
  - rewrite (validate_date_input_parsed _ _ _ Hc E) in H. injection H as <-.
    destruct Hc as [_ Hc]. destruct (Hc s ts0 E) as [_ Hb].
    unfold in_timestamp_bounds in Hb. apply andb_true_iff in Hb as [H1 H2].
    apply Z.leb_le in H1, H2.
    destruct (year ts0 >? cutoff_year) eqn:Ey; [|lia].
    apply Z.gtb_lt in Ey. cbn [year with_year].
    unfold cutoff_year, timestamp_min_year, timestamp_max_year in *. lia.
  - unfold validate_date_input in H. rewrite E in H. discriminate.
  - unfold validate_date_input in H. rewrite E in H.
    destruct Hc as [Hc _]. rewrite (Hc s e E) in H. discriminate.
Qed.

Lemma mapM_In {A B : Type} (f : A -> result B) (l : list A) (l' : list B) (y : B) :
  mapM f l = Return l' -> In y l' -> exists x, In x l /\ f x = Return y.
Proof.
  revert l'. induction l as [|x l IH]; intros l' H Hy; cbn in H.
  - injection H as <-. destruct Hy.
  - destruct (f x) as [y0|] eqn:Ex; [|discriminate]. cbn [bind] in H.
    destruct (mapM f l) as [ys|]; [|discriminate]. cbn [bind] in H.
    injection H as <-. destruct Hy as [<-|Hy].
    + exists x. split; [now left|assumption].
    + destruct (IH ys eq_refl Hy) as (x' & Hx' & Hf). exists x'.
      split; [now right|assumption].
Qed.

(** After a start with year bounds every date of the table, and both year
    bounds, lie in the years of a timestamp. *)
Lemma load_years (to_datetime : datetime_parser) (csv : list CsvRow) (app : App) :
  parser_contract to_datetime ->
  load to_datetime csv = Return (Serving app) ->
  (forall r ts, In r (data app) -> Launch_Date r = Some ts ->
     timestamp_min_year <= year ts <= timestamp_max_year) /\
  timestamp_min_year <= min_allowed_year app <= timestamp_max_year /\
  timestamp_min_year <= max_allowed_year app <= timestamp_max_year.
Proof.
  intros Hc Hload.
  destruct (load_inv _ _ _ Hload) as (Hdata & _ & _ & _ & Hlo & Hhi).
  assert (Hrows : forall r ts, In r (data app) -> Launch_Date r = Some ts ->
                    timestamp_min_year <= year ts <= timestamp_max_year).
  { intros r ts Hr Hts.
    destruct (mapM_In _ _ _ _ Hdata Hr) as (r0 & _ & Hn).
    unfold normalize_row in Hn.
    destruct (validate_date_input to_datetime (Launch_Date r0)) as [c|] eqn:Ev;
      [|discriminate].
    cbn [bind] in Hn. injection Hn as <-. cbn [Launch_Date] in Hts.
    destruct c as [ts'| |]; try discriminate. injection Hts as ->.
    exact (validate_date_input_year _ _ _ Hc Ev). }
  split; [exact Hrows|].
  destruct Hlo as (lo & Hlo & ->), Hhi as (hi & Hhi & ->).
  apply in_map_iff in Hlo as (rl & Hl1 & Hl2), Hhi as (rh & Hh1 & Hh2).
  split; eauto.
Qed.

Lemma year_text_in_range_numeric (y0 y1 : Z) (r : Mission) :
  1000 <= y0 <= 9999 -> 1000 <= y1 <= 9999 ->
  (forall ts, Launch_Date r = Some ts -> 1000 <= year ts <= 9999) ->
  year_text_in_range y0 y1 r = year_in_range y0 y1 r.
Proof.
  intros H0 H1 Hr. unfold year_text_in_range, year_in_range, strftime_Y.
  destruct (Launch_Date r) as [ts|]; [|reflexivity].
  specialize (Hr ts eq_refl). now rewrite !py_str_leb.
Qed.

Lemma loaded_year_filter (to_datetime : datetime_parser) (csv : list CsvRow)
    (app : App) (start_year end_year : Z) :
  parser_contract to_datetime ->
  load to_datetime csv = Return (Serving app) ->
  let years := validate_year_range app start_year end_year in
  filter (year_text_in_range (fst years) (snd years)) (data app) =
  filter (year_in_range (fst years) (snd years)) (data app).
Proof.
  intros Hc Hload years.
  destruct (load_years _ _ _ Hc Hload) as (Hrows & Hmin & Hmax).
  unfold timestamp_min_year, timestamp_max_year in *.
  assert (Hyears : 1000 <= fst years <= 9999 /\ 1000 <= snd years <= 9999).
  { subst years. unfold validate_year_range.
    destruct ((min_allowed_year app <=? start_year) &&
              (start_year <=? max_allowed_year app) &&
              ((min_allowed_year app <=? end_year) &&
               (end_year <=? max_allowed_year app))) eqn:E;
      cbn [fst snd]; [|lia].
    repeat (apply andb_true_iff in E as [E ?]).
    repeat match goal with H : (_ <=? _) = true |- _ => apply Z.leb_le in H end.
    lia. }
  apply filter_ext_in. intros r Hr.
  apply year_text_in_range_numeric; try tauto.
  intros ts Hts. specialize (Hrows r ts Hr Hts). lia.
Qed.

(* ===================================================================== *)
(** ** Counts of distinct values *)
(* ===================================================================== *)

Lemma count_rows_false {A : Type} (p : A -> bool) (l : list A) :
  (forall x, In x l -> p x = false) -> count_rows p l = 0.
Proof.
  intros H. induction l as [|x l IH]; [reflexivity|].
  rewrite count_rows_cons, (H x) by now left.
  rewrite IH; [reflexivity|]. intros y Hy. apply H. now right.
Qed.

Lemma insert_by_count_perm {A : Type} (e : A * Z) (l : list (A * Z)) :
  Permutation (e :: l) (insert_by_count e l).
Proof.
  induction l as [|x l IH]; cbn; [reflexivity|].
  destruct (snd x <=? snd e); [reflexivity|].
  apply perm_trans with (x :: e :: l); [apply perm_swap|now apply perm_skip].
Qed.

Lemma sort_by_count_perm {A : Type} (l : list (A * Z)) :
  Permutation l (sort_by_count l).
Proof.
  induction l as [|e l IH]; cbn; [reflexivity|].
  apply perm_trans with (e :: sort_by_count l);
    [now apply perm_skip|apply insert_by_count_perm].
Qed.

Lemma insert_by_count_sorted {A : Type} (e : A * Z) (l : list (A * Z)) :
  Sorted by_count_desc l -> Sorted by_count_desc (insert_by_count e l).
Proof.
  induction l as [|x l IH]; intros Hs; cbn.
  - repeat constructor.
  - destruct (snd x <=? snd e) eqn:E.
    + apply Z.leb_le in E. constructor; [assumption|]. now constructor.
    + apply Z.leb_gt in E. inversion Hs as [|? ? Hs' Hhd]; subst.
      constructor; [now apply IH|].
      destruct l as [|y l]; cbn.
      * constructor. unfold by_count_desc. lia.
      * destruct (snd y <=? snd e); constructor;
          [unfold by_count_desc; lia|now inversion Hhd].
Qed.

Lemma sort_by_count_sorted {A : Type} (l : list (A * Z)) :
  Sorted by_count_desc (sort_by_count l).
Proof.
  induction l as [|e l IH]; cbn; [constructor|now apply insert_by_count_sorted].
Qed.

Lemma sum_Z_perm (l l' : list Z) : Permutation l l' -> sum_Z l = sum_Z l'.
Proof. unfold sum_Z. induction 1; cbn [fold_right] in *; lia. Qed.

Lemma ts_eqb_eq (a b : Timestamp) : ts_eqb a b = true <-> a = b.
Proof.
  unfold ts_eqb. rewrite !andb_true_iff, !Z.eqb_eq. split.
  - destruct a, b. cbn. intros [[[[[[[-> ->] ->] ->] ->] ->] ->] ->]. reflexivity.
  - intros ->. tauto.
Qed.

Section ValueCounts.

Context {A : Type} (eqb : A -> A -> bool).
Hypothesis eqb_eq : forall a b, eqb a b = true <-> a = b.

Lemma value_counts_perm (col : list (option A)) :
  Permutation (first_appearance_counts eqb col) (value_counts eqb col).
Proof. apply sort_by_count_perm. Qed.

Lemma first_appearance_counts_In (col : list (option A)) (v : A) (n : Z) :
  In (v, n) (first_appearance_counts eqb col) <->
  n = count_eqb eqb v (dropna col) /\ In v (dropna col).
Proof.
  unfold first_appearance_counts. rewrite in_map_iff. split.
  - intros (x & [= -> <-] & Hx). split; [reflexivity|].
    exact (proj1 (unique_In eqb eqb_eq _ _) Hx).
  - intros [-> Hv]. exists v. split; [reflexivity|].
    exact (proj2 (unique_In eqb eqb_eq _ _) Hv).
Qed.

Lemma value_counts_In (col : list (option A)) (v : A) (n : Z) :
  In (v, n) (value_counts eqb col) <->
  n = count_eqb eqb v (dropna col) /\ In v (dropna col).
Proof.
  rewrite <- first_appearance_counts_In. split.
  - apply Permutation_in, Permutation_sym, value_counts_perm.
  - apply Permutation_in, value_counts_perm.
Qed.

Lemma count_eqb_pos (v : A) (l : list A) :
  In v l <-> 0 < count_eqb eqb v l.
Proof.
  unfold count_eqb. induction l as [|x l IH]; cbn; [lia|].
  destruct (eqb v x) eqn:E.
  - apply eqb_eq in E. subst. cbn [List.length]. split; [lia|auto].
  - rewrite <- IH. split; [intros [->|H]; [|assumption]|auto].
    assert (eqb v v = true) by now apply eqb_eq. congruence.
Qed.

Lemma count_eqb_NoDup (k : A) (l : list A) :
  NoDup l -> In k l -> count_rows (fun x => eqb x k) l = 1.
Proof.
  induction 1 as [|x l Hx Hnd IH]; intros Hk; [destruct Hk|].
  rewrite count_rows_cons. destruct Hk as [->|Hk].
  - replace (eqb k k) with true by (symmetry; now apply eqb_eq).
    rewrite count_rows_false; [reflexivity|].
    intros y Hy. apply Bool.not_true_iff_false. intros E.
    apply eqb_eq in E. subst. contradiction.
  - replace (eqb x k) with false; [now rewrite IH|].
    symmetry. apply Bool.not_true_iff_false. intros E.
    apply eqb_eq in E. subst. contradiction.
Qed.

(** The counts of [value_counts] add up to the number of values present. *)
Lemma value_counts_sum (col : list (option A)) :
  sum_Z (map snd (value_counts eqb col)) = Z.of_nat (List.length (dropna col)).
Proof.
  rewrite <- (sum_Z_perm _ _ (Permutation_map snd (value_counts_perm col))).
  unfold first_appearance_counts. rewrite map_map. cbn [snd].
  set (P := dropna col).
  change (sum_Z (map (fun v => count_rows (eqb v) P) (unique eqb P)) =
          Z.of_nat (List.length P)).
  rewrite (sum_count_exchange eqb (unique eqb P) P).
  transitivity (sum_Z (map (fun _ : A => 1) P)).
  - f_equal. apply map_ext_in. intros x Hx.
    apply count_eqb_NoDup; [apply (unique_NoDup eqb eqb_eq)|].
    now apply (unique_In eqb eqb_eq).
  - clear. induction P as [|x P IH]; [reflexivity|].
    cbn [map List.length]. change (sum_Z (1 :: ?l)) with (1 + sum_Z l). lia.
Qed.

Lemma first_appearance_counts_keys (col : list (option A)) :
  map fst (first_appearance_counts eqb col) = unique eqb (dropna col).
Proof.
  unfold first_appearance_counts. rewrite map_map. cbn [fst]. apply map_id.
Qed.

(** The values [value_counts] counts are the distinct values present. *)
Lemma value_counts_keys (col : list (option A)) :
  Permutation (unique eqb (dropna col)) (map fst (value_counts eqb col)).
Proof.
  rewrite <- first_appearance_counts_keys.
  apply Permutation_map, value_counts_perm.
Qed.

Lemma value_counts_length (col : list (option A)) :
  List.length (value_counts eqb col) = List.length (unique eqb (dropna col)).
Proof.
  rewrite <- (length_map fst).
  symmetry. apply Permutation_length, value_counts_keys.
Qed.

Lemma value_counts_NoDup (col : list (option A)) :
  NoDup (map fst (value_counts eqb col)).
Proof.
  eapply Permutation_NoDup; [apply value_counts_keys|].
  apply (unique_NoDup eqb eqb_eq).
Qed.

Lemma value_counts_sorted (col : list (option A)) :
  Sorted by_count_desc (value_counts eqb col).
Proof. apply sort_by_count_sorted. Qed.

End ValueCounts.

Lemma count_outcome (o : string) (rows : DataFrame) :
  count_eqb String.eqb o (dropna (map Outcome rows)) = count_rows (has_outcome o) rows.
Proof.
  unfold count_eqb, count_rows. f_equal.
  induction rows as [|r rows IH]; [reflexivity|].
  cbn [map dropna filter]. unfold has_outcome at 1.
  destruct (Outcome r) as [o'|]; [|exact IH].
  cbn [filter]. destruct (o =? o')%string; cbn [List.length]; now rewrite IH.
Qed.

Lemma count_date (t : Timestamp) (rows : DataFrame) :
  count_eqb ts_eqb t (dropna (map Launch_Date rows)) = count_rows (has_launch_date t) rows.
Proof.
  unfold count_eqb, count_rows. f_equal.
  induction rows as [|r rows IH]; [reflexivity|].
  cbn [map dropna filter]. unfold has_launch_date at 1.
  destruct (Launch_Date r) as [t'|]; [|exact IH].
  cbn [filter]. destruct (ts_eqb t t'); cbn [List.length]; now rewrite IH.
Qed.

Lemma unique_from_option {A : Type} (eqb : A -> A -> bool) (seen l : list A) :
  unique_from (option_eqb eqb) (map Some seen) (map Some l) =
    map Some (unique_from eqb seen l).
Proof.
  revert seen. induction l as [|x l IH]; intros seen; cbn; [reflexivity|].
  replace (existsb (option_eqb eqb (Some x)) (map Some seen))
    with (existsb (eqb x) seen)
    by (induction seen as [|y seen IHs]; cbn; [reflexivity|now rewrite IHs]).
  destruct (existsb (eqb x) seen); [apply IH|].
  cbn. f_equal. apply (IH (x :: seen)).
Qed.

Lemma NoDup_map_Some {A : Type} (l : list A) : NoDup l -> NoDup (map Some l).
Proof.
  induction 1 as [|x l Hx _ IH]; cbn; constructor; [|exact IH].
  intros H. apply in_map_iff in H as (y & [= ->] & Hy). contradiction.
Qed.

Lemma dated_rows_column (df : DataFrame) :
  (forall r, In r df -> has_date r = true) ->
  map Launch_Date df = map Some (dropna (map Launch_Date df)) /\
  List.length (dropna (map Launch_Date df)) = List.length df.
Proof.
  induction df as [|r df IH]; intros H; [split; reflexivity|].
  destruct IH as [IH1 IH2]; [intros x Hx; apply H; now right|].
  specialize (H r (or_introl eq_refl)). unfold has_date in H. cbn [map dropna].
  destruct (Launch_Date r); [|discriminate]. cbn. split; congruence.
Qed.

Lemma dated_rows_unique (df : DataFrame) :
  (forall r, In r df -> has_date r = true) ->
  unique (option_eqb ts_eqb) (map Launch_Date df) =
    map Some (unique ts_eqb (dropna (map Launch_Date df))).
Proof.
  intros H. destruct (dated_rows_column df H) as [Hcol _].
  unfold unique. rewrite Hcol at 1. apply (unique_from_option ts_eqb []).
Qed.

Lemma present_outcomes_length (df : DataFrame) :
  outcomes_present df = true ->
  List.length (dropna (map Outcome df)) = List.length df.
Proof.
  intros H. rewrite <- (length_map Some), <- outcomes_present_map by assumption.
  apply length_map.
Qed.

(** On rows that all have a date the scatter plot is drawn exactly when
    there is a row. *)
Lemma create_scatter_dated (df : DataFrame) (title : string) :
  (forall r, In r df -> has_date r = true) ->
  create_scatter df title =
    match df with
    | [] => Raise ValueError
    | _ :: _ =>
        Return (mkScatter (unique (option_eqb ts_eqb) (map Launch_Date df))
                          (value_counts ts_eqb (map Launch_Date df)) title)
    end.
Proof.
  intros H. destruct df as [|r df]; [reflexivity|].
  unfold create_scatter. cbv zeta.
  assert (Hlen : List.length (unique (option_eqb ts_eqb) (map Launch_Date (r :: df))) =
                 List.length (value_counts ts_eqb (map Launch_Date (r :: df)))).
  { rewrite (value_counts_length ts_eqb), (dated_rows_unique _ H).
    apply length_map. }
  assert (Hx : unique (option_eqb ts_eqb) (map Launch_Date (r :: df)) <> []).
  { cbn [map].
    destruct (unique_head (option_eqb ts_eqb) (Launch_Date r) (map Launch_Date df))
      as [rest ->].
    discriminate. }
  revert Hlen Hx.
  generalize (unique (option_eqb ts_eqb) (map Launch_Date (r :: df))) as x.
  generalize (value_counts ts_eqb (map Launch_Date (r :: df))) as y.
  intros y x Hlen Hx. destruct x as [|o x]; [contradiction|].
  cbv beta iota. now rewrite Hlen, Nat.eqb_refl.
Qed.

(* ===================================================================== *)
(** ** What the charts-by-country handler answers *)
(* ===================================================================== *)

Lemma year_text_in_range_dated (y0 y1 : Z) (r : Mission) :
  year_text_in_range y0 y1 r = true -> has_date r = true.
Proof.
  unfold year_text_in_range, has_date. now destruct (Launch_Date r).
Qed.

(** The handler in closed form: it raises for a country when a row of the
    year range has no Operator, it raises when no record is left, and it
    returns the three charts of the records otherwise. *)
Lemma get_charts_by_country_closed (app : App) (entered_country : string)
    (entered_years : Z * Z) :
  let country := validate_country_input entered_country in
  let years := validate_year_range app (fst entered_years) (snd entered_years) in
  let year_df := filter (year_text_in_range (fst years) (snd years)) (data app) in
  let records :=
    if (country =? "All Countries")%string then year_df
    else filter (operator_contains country) year_df in
  get_charts_by_country app entered_country entered_years =
    if (country =? "All Countries")%string || operators_present year_df
    then match records with
         | [] => Raise ValueError
         | _ :: _ => Return (charts_of_records (data app) records country)
         end
    else Raise ValueError.
Proof.
  cbv zeta. rewrite get_charts_by_country_unfold, charts_of_year_df_unfold.
  set (country := validate_country_input entered_country).
  set (year_df := filter _ (data app)).
  assert (Hd : forall r, In r year_df -> has_date r = true).
  { intros r Hr. apply filter_In in Hr as [_ Hr].
    exact (year_text_in_range_dated _ _ _ Hr). }
  unfold charts_of_records, pie_title_for, scatter_title_for, charts_for.
  destruct (country =? "All Countries")%string; cbn [orb].
  - rewrite (create_scatter_dated _ _ Hd). now destruct year_df.
  - destruct (operators_present year_df); [|reflexivity].
    rewrite create_scatter_dated.
    + now destruct (filter (operator_contains country) year_df).
    + intros r Hr. apply filter_In in Hr as [Hr _]. now apply Hd.
Qed.

Lemma get_charts_by_country_loaded (to_datetime : datetime_parser)
    (csv : list CsvRow) (app : App) (entered_country : string)
    (entered_years : Z * Z) :
  parser_contract to_datetime ->
  load to_datetime csv = Return (Serving app) ->
  let country := validate_country_input entered_country in
  let years := validate_year_range app (fst entered_years) (snd entered_years) in
  let records := charts_record_set (data app) country (fst years) (snd years) in
  get_charts_by_country app entered_country entered_years =
    if (country =? "All Countries")%string ||
       operators_present (filter (year_in_range (fst years) (snd years)) (data app))
    then match records with
         | [] => Raise ValueError
         | _ :: _ => Return (charts_of_records (data app) records country)
         end
    else Raise ValueError.
Proof.
  intros Hc Hload. cbv zeta. rewrite get_charts_by_country_closed. cbv zeta.
  rewrite (loaded_year_filter _ _ _ _ _ Hc Hload). reflexivity.
Qed.

Lemma charts_record_set_In (df : DataFrame) (country : string) (y0 y1 : Z)
    (r : Mission) :
  In r (charts_record_set df country y0 y1) -> In r df /\ has_date r = true.
Proof.
  unfold charts_record_set. intros Hr.
  assert (Hy : In r (filter (year_in_range y0 y1) df)).
  { destruct (_ =? _)%string; [assumption|]. now apply filter_In in Hr as [Hr _]. }
  apply filter_In in Hy as [Hy1 Hy2]. split; [assumption|].
  unfold year_in_range in Hy2. unfold has_date. now destruct (Launch_Date r).
Qed.

(** C1. After a start with year bounds, whatever [get_charts_by_country]
    returns is the three charts of one record set: the rows of the table
    whose Launch Date is present with a year in the validated range, bounds
    included, further restricted, exactly when the validated country is
    not "All Countries", to the rows whose Operator contains the country
    name. The pie chart holds the Outcome value counts of this set: one
    entry per outcome that occurs in it, with the number of its records
    with that outcome, the counts adding up to the number of records; the
    scatter plot and the matrix are computed from the same set. The charts
    are returned whenever the set has a record and, with a country
    selected, every row of the year range has an Operator. *)
Theorem get_charts_by_country_record_set (to_datetime : datetime_parser)
    (csv : list CsvRow) (app : App) (entered_country : string)
    (entered_years : Z * Z) :
  parser_contract to_datetime ->
  load to_datetime csv = Return (Serving app) ->
  let country := validate_country_input entered_country in
  let years := validate_year_range app (fst entered_years) (snd entered_years) in
  let records := charts_record_set (data app) country (fst years) (snd years) in
  (forall children,
     get_charts_by_country app entered_country entered_years = Return children ->
     exists pie scatter heatmap,
       children = Graphs pie scatter heatmap /\
       pie_names_values pie = value_counts String.eqb (map Outcome records) /\
       (forall o n, In (o, n) (pie_names_values pie) <->
                    n = count_rows (has_outcome o) records /\ 0 < n) /\
       NoDup (map fst (pie_names_values pie)) /\
       sum_Z (map snd (pie_names_values pie)) = Z.of_nat (List.length records) /\
       scatter_x scatter = unique (option_eqb ts_eqb) (map Launch_Date records) /\
       scatter_y scatter = value_counts ts_eqb (map Launch_Date records) /\
       heatmap_z heatmap = create_matrix_for_heatmap (data app) records) /\
  (country = "All Countries" \/
   operators_present (filter (year_in_range (fst years) (snd years)) (data app)) = true ->
   records <> [] ->
   exists children,
     get_charts_by_country app entered_country entered_years = Return children).
Proof.
  intros Hc Hload country years records.
  pose proof (get_charts_by_country_loaded _ _ _ entered_country entered_years
                Hc Hload) as Hget.
  cbv zeta in Hget. fold country years records in Hget. rewrite Hget.
  split.
  - intros children H.
    destruct (_ || _); [|discriminate].
    destruct records as [|r0 rest] eqn:Er; [discriminate|]. rewrite <- Er in *.
    injection H as <-. unfold charts_of_records.
    eexists _, _, _. split; [reflexivity|].
    cbn [create_pie pie_names_values scatter_x scatter_y create_heatmap heatmap_z].
    split; [reflexivity|]. split; [|split; [|split; [|auto]]].
    + intros o n. rewrite (value_counts_In String.eqb String.eqb_eq).
      rewrite (count_eqb_pos String.eqb String.eqb_eq), count_outcome.
      split; intros [-> Hn]; split; auto.
    + apply (value_counts_NoDup String.eqb String.eqb_eq).
    + rewrite (value_counts_sum String.eqb String.eqb_eq). f_equal.
      apply present_outcomes_length.
      destruct (load_inv _ _ _ Hload) as (_ & Hout & _).
      unfold outcomes_present in *. rewrite forallb_forall in *.
      intros r Hr. apply Hout.
      now apply (charts_record_set_In _ _ _ _ _ Hr).
  - intros Hop Hne.
    replace (_ || _) with true.
    + destruct records; [contradiction|eauto].
    + symmetry. apply orb_true_iff.
      destruct Hop as [Hop|Hop]; [left; now apply String.eqb_eq|now right].
Qed.

Lemma get_charts_by_country_record_set_witness :
  parser_contract iso_to_datetime /\
  load iso_to_datetime sample_csv = Return (Serving (app_of sample_csv)) /\
  exists children,
    get_charts_by_country (app_of sample_csv) "United States" (1969, 1972) =
      Return children.
Proof.
  split; [exact iso_to_datetime_contract|]. split; [reflexivity|].
  refine (proj2 (get_charts_by_country_record_set iso_to_datetime sample_csv
                   (app_of sample_csv) "United States" (1969, 1972)
                   iso_to_datetime_contract eq_refl) (or_intror eq_refl) _).
  vm_compute. discriminate.
Defined.

(* ===================================================================== *)
(** ** The mission type by outcome matrix *)
(* ===================================================================== *)

Lemma add_aligned_zeros (idx : list label) (s : list (string * Z)) :
  add_aligned idx (map (fun _ => Some 0) idx) s =
    map (fun r => match series_get s r with
                  | Some b => Some (0 + b)
                  | None => None
                  end) idx.
Proof.
  unfold add_aligned.
  induction idx as [|r idx IH]; cbn; [reflexivity|]. now rewrite IH.
Qed.

Lemma find_app_none {A : Type} (p : A -> bool) (l1 l2 : list A) :
  (forall x, In x l1 -> p x = false) -> find p (l1 ++ l2) = find p l2.
Proof.
  intros H. induction l1 as [|x l1 IH]; cbn; [reflexivity|].
  rewrite (H x) by now left. apply IH. intros y Hy. apply H. now right.
Qed.

Lemma label_eqb_refl (c : label) : label_eqb c c = true.
Proof. now apply label_eqb_eq. Qed.

Lemma label_eqb_neq (a b : label) : a <> b -> label_eqb a b = false.
Proof.
  intros H. apply Bool.not_true_iff_false. intros E. now apply label_eqb_eq in E.
Qed.

Section Loop.

Variable series : list ((string * string) * Z).
Variable idx : list label.

Local Abbreviation counted := (counted_column series idx).
Local Abbreviation untouched := (zero_column idx).

Lemma add_outcome_counts_head (done todo : list label) (c : label) :
  NoDup (done ++ c :: todo) ->
  add_outcome_counts series
    (mkFrame idx (map (fun c => (c, counted c)) done ++ map untouched (c :: todo)))
    c =
  mkFrame idx (map (fun c => (c, counted c)) (done ++ [c]) ++ map untouched todo).
Proof.
  intros Hnd.
  assert (Hc1 : ~ In c done).
  { intros H. apply NoDup_remove_2 in Hnd. apply Hnd, in_or_app. now left. }
  assert (Hc2 : ~ In c todo).
  { intros H. apply NoDup_remove_2 in Hnd. apply Hnd, in_or_app. now right. }
  assert (Hdone : forall l (h : label -> label * list (option Z)) v,
            (forall x, fst (h x) = x) -> ~ In c l ->
            map (fun e => if label_eqb c (fst e) then (fst e, v) else e)
                (map h l) = map h l).
  { intros l h v Hh Hl. rewrite map_map. apply map_ext_in. intros x Hx.
    rewrite Hh, label_eqb_neq; [reflexivity|]. intros ->. contradiction. }
  unfold add_outcome_counts. rewrite map_app, <- app_assoc.
  cbn [map app]. fold (counted c).
  destruct (in_keys c series) eqn:Ek.
  - unfold get_column. cbn [columns index].
    rewrite find_app_none.
    + cbn [find map untouched fst]. rewrite label_eqb_refl. cbn [option_map snd].
      unfold set_column. cbn [columns index]. rewrite map_app. cbn [map fst].
      rewrite label_eqb_refl.
      rewrite (Hdone done (fun c => (c, counted c)) _ (fun x => eq_refl) Hc1).
      rewrite (Hdone todo untouched _ (fun x => eq_refl) Hc2).
      unfold counted_column, zero_column. cbn [fst snd]. rewrite Ek. reflexivity.
    + intros e He. apply in_map_iff in He as (x & <- & Hx). cbn.
      apply label_eqb_neq. intros ->. contradiction.
  - unfold counted_column, zero_column. rewrite Ek. reflexivity.
Qed.

Lemma fold_add_outcome_counts (todo done : list label) :
  NoDup (done ++ todo) ->
  fold_left (add_outcome_counts series) todo
    (mkFrame idx (map (fun c => (c, counted c)) done ++ map untouched todo)) =
  mkFrame idx (map (fun c => (c, counted c)) (done ++ todo)).
Proof.
  revert done. induction todo as [|c todo IH]; intros done Hnd.
  - cbn. now rewrite !app_nil_r.
  - cbn [fold_left]. rewrite add_outcome_counts_head by assumption.
    rewrite IH by (now rewrite <- app_assoc).
    now rewrite <- app_assoc.
Qed.

(** The loop and [fillna], on the frame of zeros. *)
Lemma loop_filled (cols : list label) :
  NoDup cols ->
  fillna_astype_int
    (fold_left (add_outcome_counts series)
               (map fst (columns (zero_frame idx cols))) (zero_frame idx cols)) =
  mkFrame idx (map (fun c => (c, map (filled_cell series c) idx)) cols).
Proof.
  intros Hnd.
  assert (E : zero_frame idx cols =
              mkFrame idx (map (fun c => (c, counted c)) [] ++ map untouched cols))
    by reflexivity.
  assert (E' : map fst (columns (zero_frame idx cols)) = cols).
  { unfold zero_frame. cbn [columns]. rewrite map_map. cbn [fst]. apply map_id. }
  rewrite E', E, (fold_add_outcome_counts cols [] Hnd). cbn [app].
  unfold fillna_astype_int. cbn [index columns]. f_equal.
  rewrite map_map. apply map_ext. intros c. cbn [fst snd]. f_equal.
  unfold counted_column, filled_cell.
  destruct (in_keys c series).
  - rewrite add_aligned_zeros, map_map. apply map_ext. intros r.
    now destruct (series_get _ r).
  - now rewrite map_map.
Qed.

End Loop.

Lemma count_pair (o t : string) (df : DataFrame) :
  count_eqb pair_eqb (o, t) (dropna (map pair_of df)) =
    count_rows (has_pair (Some t) (Some o)) df.
Proof.
  unfold count_eqb, count_rows. f_equal.
  induction df as [|r df IH]; [reflexivity|].
  cbn [map dropna filter]. unfold has_pair at 1.
  destruct (pair_of r) as [k|]; cbn [option_eqb]; [|exact IH].
  cbn [filter]. destruct (pair_eqb (o, t) k); cbn [List.length]; now rewrite IH.
Qed.

(** Reading one count out of a series built from a list of keys. *)
Lemma series_get_cross_section (cnt : string * string -> Z)
    (ks : list (string * string)) (o t : string) :
  series_get (cross_section (map (fun k => (k, cnt k)) ks) (Some o)) (Some t) =
    option_map cnt (find (pair_eqb (o, t)) ks).
Proof.
  unfold series_get, cross_section.
  induction ks as [|k ks IH]; [reflexivity|].
  cbn [map filter find fst snd]. unfold pair_eqb at 1. cbn [fst snd].
  destruct (o =? fst k)%string; cbn [andb map find fst snd]; [|exact IH].
  destruct (t =? snd k)%string; [reflexivity|exact IH].
Qed.

Lemma in_keys_series (cnt : string * string -> Z) (ks : list (string * string))
    (o : string) :
  in_keys (Some o) (map (fun k => (k, cnt k)) ks) =
    existsb (fun k => (o =? fst k)%string) ks.
Proof.
  unfold in_keys. induction ks as [|k ks IH]; [reflexivity|].
  cbn [map existsb fst]. now rewrite IH.
Qed.

(** Every cell the loop fills is the number of rows of [df] with the type
    of its row and the outcome of its column. *)
Lemma filled_cell_count (df : DataFrame) (c r : label) :
  filled_cell (groupby_value_counts df) c r = count_rows (has_pair r c) df.
Proof.
  unfold filled_cell, groupby_value_counts, first_appearance_counts.
  set (P := dropna (map pair_of df)).
  destruct c as [o|];
    [|destruct r; symmetry; apply count_rows_false; reflexivity].
  destruct r as [t|].
  - rewrite in_keys_series, series_get_cross_section, <- count_pair. fold P.
    destruct (find (pair_eqb (o, t)) (unique pair_eqb P)) as [k|] eqn:Ef.
    + apply find_some in Ef as [Hk Ek]. apply pair_eqb_eq in Ek. subst k.
      cbn [option_map].
      replace (existsb (fun k => (o =? fst k)%string) (unique pair_eqb P)) with true;
        [reflexivity|].
      symmetry. apply existsb_exists. exists (o, t). split; [assumption|].
      apply String.eqb_refl.
    + cbn [option_map].
      assert (Hn : ~ In (o, t) P).
      { intros H. apply (unique_In pair_eqb pair_eqb_eq) in H.
        apply (find_none _ _ Ef) in H.
        assert (pair_eqb (o, t) (o, t) = true) by now apply pair_eqb_eq.
        congruence. }
      assert (count_eqb pair_eqb (o, t) P = 0).
      { rewrite (count_eqb_pos pair_eqb pair_eqb_eq) in Hn.
        unfold count_eqb in *. lia. }
      now destruct (existsb _ _).
  - replace (count_rows (has_pair None (Some o)) df) with 0
      by (symmetry; apply count_rows_false; reflexivity).
    cbn [series_get]. now destruct (in_keys _ _).
Qed.

(** The matrix in closed form: the row and column labels of the whole
    table, and in every cell the count of the rows of [df]. *)
Lemma create_matrix_for_heatmap_eq (data df : DataFrame) :
  create_matrix_for_heatmap data df =
    let idx := unique label_eqb (map Mission_Type data) in
    mkFrame idx
      (map (fun c => (c, map (fun r => count_rows (has_pair r c) df) idx))
           (unique label_eqb (map Outcome data))).
Proof.
  unfold create_matrix_for_heatmap. cbv zeta.
  rewrite loop_filled by apply (unique_NoDup label_eqb label_eqb_eq).
  f_equal. apply map_ext. intros c. f_equal. apply map_ext. intros r.
  apply filled_cell_count.
Qed.

Lemma count_label_NoDup (k : label) (l : list label) :
  NoDup l -> In k l -> count_rows (fun x => label_eqb x k) l = 1.
Proof.
  induction 1 as [|x l Hx Hnd IH]; intros Hk; [destruct Hk|].
  rewrite count_rows_cons. destruct Hk as [->|Hk].
  - rewrite label_eqb_refl, count_rows_false; [reflexivity|].
    intros y Hy. apply label_eqb_neq. intros ->. contradiction.
  - rewrite label_eqb_neq, IH by (assumption || (intros ->; contradiction)).
    reflexivity.
Qed.

Lemma sum_Z_map_zero {A : Type} (f : A -> Z) (l : list A) :
  (forall x, f x = 0) -> sum_Z (map f l) = 0.
Proof.
  intros H. induction l as [|x l IH]; [reflexivity|].
  cbn [map]. change (sum_Z (f x :: map f l)) with (f x + sum_Z (map f l)).
  now rewrite H, IH.
Qed.

(** What one row adds to the cells, over labels that include its own. *)
Lemma row_weight (idx cols : list label) (row : Mission) :
  NoDup idx -> NoDup cols ->
  In (Mission_Type row) idx -> In (Outcome row) cols ->
  sum_Z (map (fun c => sum_Z (map (fun r => if has_pair r c row then 1 else 0) idx))
             cols) =
    if both_present row then 1 else 0.
Proof.
  intros Hi Hc Ht Ho.
  unfold both_present. destruct (Mission_Type row) as [t|] eqn:Et;
    destruct (Outcome row) as [o|] eqn:Eo; cbn [is_none negb andb].
  2-4: apply sum_Z_map_zero; intros c; apply sum_Z_map_zero; intros r;
       destruct r, c; unfold has_pair, pair_of; rewrite ?Et, ?Eo; reflexivity.
  assert (Hp : forall r c, has_pair r c row =
                 label_eqb c (Some o) && label_eqb r (Some t)).
  { intros [t'|] [o'|]; unfold has_pair, pair_of; rewrite ?Et, ?Eo;
      try reflexivity; cbn; now rewrite andb_false_r. }
  transitivity (sum_Z (map (fun c => if label_eqb c (Some o) then 1 else 0) cols)).
  - f_equal. apply map_ext. intros c.
    destruct (label_eqb c (Some o)) eqn:Ec.
    + transitivity (count_rows (fun x => label_eqb x (Some t)) idx);
        [|now apply count_label_NoDup].
      rewrite <- sum_Z_indicator.
      f_equal. apply map_ext. intros r. rewrite Hp, Ec. reflexivity.
    + apply sum_Z_map_zero. intros r. rewrite Hp, Ec. reflexivity.
  - rewrite sum_Z_indicator. now apply count_label_NoDup.
Qed.

Lemma matrix_total (idx cols : list label) (df : DataFrame) :
  NoDup idx -> NoDup cols ->
  (forall row, In row df -> In (Mission_Type row) idx /\ In (Outcome row) cols) ->
  sum_Z (map (fun c => sum_Z (map (fun r => count_rows (has_pair r c) df) idx)) cols) =
    count_rows both_present df.
Proof.
  intros Hi Hc. induction df as [|row df IH]; intros Hdf.
  - apply sum_Z_map_zero. intros c. apply sum_Z_map_zero. reflexivity.
  - rewrite count_rows_cons, <- IH by (intros x Hx; apply Hdf; now right).
    destruct (Hdf row (or_introl eq_refl)) as [Ht Ho].
    rewrite <- (row_weight idx cols row Hi Hc Ht Ho), <- sum_Z_map_add.
    f_equal. apply map_ext. intros c. rewrite <- sum_Z_map_add.
    f_equal. apply map_ext. intros r. apply count_rows_cons.
Qed.

Lemma select_In {A : Type} (rows : list A) (mask : list bool) (r : A) :
  In r (select rows mask) -> In r rows.
Proof.
  revert mask. induction rows as [|x rows IH]; intros [|b mask]; cbn; try tauto.
  destruct b; cbn; intros H; [destruct H as [H|H]|]; eauto.
Qed.

Lemma get_column_closed {V : Type} (idx cols : list label) (f : label -> list V)
    (c : label) :
  In c cols ->
  get_column (mkFrame idx (map (fun c => (c, f c)) cols)) c = Some (f c).
Proof.
  unfold get_column. cbn [columns].
  induction cols as [|x cols IH]; intros Hc; [destruct Hc|].
  cbn [map find fst]. destruct (label_eqb c x) eqn:E.
  - apply label_eqb_eq in E. now subst.
  - apply IH. destruct Hc as [->|Hc]; [|assumption].
    now rewrite label_eqb_refl in E.
Qed.

Lemma position_nth_error (r : label) (idx : list label) :
  In r idx -> exists i, position r idx = Some i /\ nth_error idx i = Some r.
Proof.
  induction idx as [|x idx IH]; intros Hr; [destruct Hr|].
  cbn [position]. destruct (label_eqb r x) eqn:E.
  - apply label_eqb_eq in E. subst. exists O. split; reflexivity.
  - destruct IH as (i & Hp & Hn).
    { destruct Hr as [->|Hr]; [|assumption]. now rewrite label_eqb_refl in E. }
    exists (S i). rewrite Hp. split; [reflexivity|exact Hn].
Qed.

(** C3. For the rows [df] that a mask keeps of the table,
    [create_matrix_for_heatmap] returns a matrix whose row labels are the
    distinct Mission Type values of the whole table and whose column labels
    are the distinct Outcome values of the whole table, whatever the mask;
    the cell of a type and an outcome holds the number of rows of [df]
    with that type and that outcome, 0 when there is none; and the cells
    sum to the number of rows of [df] whose Mission Type and Outcome are
    both present. *)
Theorem create_matrix_for_heatmap_spec (data : DataFrame) (mask : list bool) :
  let df := select data mask in
  let m := create_matrix_for_heatmap data df in
  index m = unique label_eqb (map Mission_Type data) /\
  map fst (columns m) = unique label_eqb (map Outcome data) /\
  (forall type outcome,
     In type (index m) -> In outcome (map fst (columns m)) ->
     frame_cell m type outcome = Some (count_rows (has_pair type outcome) df)) /\
  frame_total m = count_rows both_present df.
Proof.
  cbv zeta. rewrite create_matrix_for_heatmap_eq. cbv zeta.
  set (df := select data mask).
  set (idx := unique label_eqb (map Mission_Type data)).
  set (cols := unique label_eqb (map Outcome data)).
  cbn [index columns].
  assert (Hlabels : map fst
            (map (fun c => (c, map (fun r => count_rows (has_pair r c) df) idx)) cols)
            = cols).
  { rewrite map_map. cbn [fst]. apply map_id. }
  rewrite Hlabels. repeat split.
  - intros type outcome Ht Ho. unfold frame_cell.
    rewrite (get_column_closed idx cols
               (fun c => map (fun r => count_rows (has_pair r c) df) idx) outcome Ho).
    cbn [index].
    destruct (position_nth_error type idx Ht) as (i & -> & Hn).
    exact (map_nth_error (fun r => count_rows (has_pair r outcome) df) i idx Hn).
  - unfold frame_total. cbn [columns]. rewrite map_map. cbn [snd].
    apply matrix_total.
    + apply (unique_NoDup label_eqb label_eqb_eq).
    + apply (unique_NoDup label_eqb label_eqb_eq).
    + intros row Hrow. apply select_In in Hrow.
      split; apply (unique_In label_eqb label_eqb_eq); now apply in_map.
Qed.

(* ===================================================================== *)
(** ** Runs on the sample table *)
(* ===================================================================== *)

Example sample_allowed_fails :
  allowed_fails (app_of sample_csv) = ["Spacecraft"; "Partial"; "Launch"].
Proof. reflexivity. Qed.

Example sample_download_upper_case :
  get_download (app_of sample_csv) 1 "CSV" =
    Some (mkDownload to_csv (data (app_of sample_csv)) "Moonlanding.csv").
Proof. reflexivity. Qed.

Example sample_download_xml : get_download (app_of sample_csv) 1 "xml" = None.
Proof. reflexivity. Qed.

Example sample_pie_united_states :
  exists scatter heatmap,
    get_charts_by_country (app_of sample_csv) "United States" (1969, 1972) =
      Return (Graphs
                (mkPie [("Successful", 2); ("Partial failure", 1)]
                       "Mission outcomes for United States")
                scatter heatmap).
Proof. vm_compute. eexists _, _. reflexivity. Qed.

Example sample_bars_exceed_records :
  exists bar,
    get_bar_chart literal_regex (app_of sample_csv) "Spacecraft" = Return bar /\
    sum_Z (bar_y bar) = 3 /\
    count_rows (fun _ => true)
      (failure_records (data (app_of sample_csv)) "Spacecraft") = 2.
Proof. vm_compute. eexists. repeat split. Qed.

Example sample_metacharacter_category :
  literal_regex "Launch(" = Raise ReError.
Proof. reflexivity. Qed.

(* ===================================================================== *)
(** ** Further properties: the validators *)
(* ===================================================================== *)

Lemma str_in_In (v : string) (l : list string) : str_in v l = true <-> In v l.
Proof. apply existsb_eqb_In, String.eqb_eq. Qed.

Lemma validate_country_input_listed (value : string) :
  In value allowed_countries -> validate_country_input value = value.
Proof.
  intros H. unfold validate_country_input. apply str_in_In in H. now rewrite H.
Qed.

Lemma validate_country_input_not_listed (value : string) :
  ~ In value allowed_countries -> validate_country_input value = "All Countries".
Proof.
  intros H. unfold validate_country_input.
  destruct (str_in value allowed_countries) eqn:E; [|reflexivity].
  apply str_in_In in E. contradiction.
Qed.

Lemma validate_country_input_In (value : string) :
  In (validate_country_input value) allowed_countries.
Proof.
  unfold validate_country_input.
  destruct (str_in value allowed_countries) eqn:E; [now apply str_in_In|now left].
Qed.

Lemma validate_country_input_idempotent (value : string) :
  validate_country_input (validate_country_input value) =
    validate_country_input value.
Proof. apply validate_country_input_listed, validate_country_input_In. Qed.

(** X1. [validate_country_input] always answers with a name of the
    allow-list: the input itself when it is listed, "All Countries"
    otherwise; validating its answer again changes nothing. *)
Theorem validate_country_input_allowed (value : string) :
  In (validate_country_input value) allowed_countries /\
  (In value allowed_countries -> validate_country_input value = value) /\
  (~ In value allowed_countries -> validate_country_input value = "All Countries") /\
  validate_country_input (validate_country_input value) =
    validate_country_input value.
Proof.
  split; [apply validate_country_input_In|].
  split; [apply validate_country_input_listed|].
  split; [apply validate_country_input_not_listed|].
  apply validate_country_input_idempotent.
Qed.

Lemma validate_year_range_idempotent (app : App) (start_year end_year : Z) :
  let v := validate_year_range app start_year end_year in
  validate_year_range app (fst v) (snd v) = v.
Proof.
  cbv zeta. unfold validate_year_range.
  destruct ((min_allowed_year app <=? start_year) &&
            (start_year <=? max_allowed_year app) &&
            ((min_allowed_year app <=? end_year) &&
             (end_year <=? max_allowed_year app))) eqn:E;
    cbn [fst snd]; [now rewrite E|].
  rewrite !Z.leb_refl, andb_true_l, andb_true_r, andb_diag.
  now destruct (min_allowed_year app <=? max_allowed_year app).
Qed.

(** X2. The charts-by-country handler reads its inputs through the
    validators only: a country outside the allow-list gives exactly the
    charts of "All Countries", and a range with a bound outside
    [[min_allowed_year, max_allowed_year]] gives exactly the charts of the
    full range, errors included. *)
Theorem get_charts_by_country_defaults (app : App) (entered_country : string)
    (start_year end_year : Z) :
  get_charts_by_country app entered_country (start_year, end_year) =
    get_charts_by_country app (validate_country_input entered_country)
      (validate_year_range app start_year end_year) /\
  (~ In entered_country allowed_countries ->
   get_charts_by_country app entered_country (start_year, end_year) =
     get_charts_by_country app "All Countries" (start_year, end_year)) /\
  (~ (min_allowed_year app <= start_year <= max_allowed_year app) \/
   ~ (min_allowed_year app <= end_year <= max_allowed_year app) ->
   get_charts_by_country app entered_country (start_year, end_year) =
     get_charts_by_country app entered_country
       (min_allowed_year app, max_allowed_year app)).
Proof.
  assert (Hgen : forall c s e,
            get_charts_by_country app c (s, e) =
            get_charts_by_country app (validate_country_input c)
              (validate_year_range app s e)).
  { intros c s e. unfold get_charts_by_country. cbn [fst snd].
    rewrite validate_country_input_idempotent.
    now rewrite validate_year_range_idempotent. }
  split; [apply Hgen|]. split.
  - intros Hn. rewrite Hgen, (Hgen "All Countries").
    now rewrite (validate_country_input_not_listed _ Hn).
  - intros Hout. rewrite Hgen, (Hgen _ (min_allowed_year app)).
    assert (E1 : validate_year_range app start_year end_year =
                 (min_allowed_year app, max_allowed_year app)).
    { unfold validate_year_range.
      destruct ((min_allowed_year app <=? start_year) &&
                (start_year <=? max_allowed_year app) &&
                ((min_allowed_year app <=? end_year) &&
                 (end_year <=? max_allowed_year app))) eqn:E; [|reflexivity].
      exfalso.
      repeat (apply andb_true_iff in E as [E ?]).
      repeat match goal with H : (_ <=? _) = true |- _ => apply Z.leb_le in H end.
      lia. }
    pose proof (validate_year_range_idempotent app start_year end_year) as Hi.
    cbv zeta in Hi. rewrite E1 in Hi. cbn [fst snd] in Hi.
    now rewrite E1, Hi.
Qed.

(* ===================================================================== *)
(** ** Further properties: the date normaliser *)
(* ===================================================================== *)

(** X3. Whatever the parser does, the only exception that leaves
    [validate_date_input] is an exception of the parser itself that is not
    a [ValueError]: a [ValueError] of the parser or of [replace] is turned
    into NaN, and an empty cell gives NaT. *)
Theorem validate_date_input_escapes (to_datetime : datetime_parser)
    (date : option string) (e : exn) :
  validate_date_input to_datetime date = Raise e ->
  e <> ValueError /\ exists s, date = Some s /\ to_datetime s = Raise e.
Proof.
  unfold validate_date_input. destruct date as [s|]; [|discriminate].
  destruct (to_datetime s) as [[ts|]|e'] eqn:Es; cbn [bind].
  - destruct (year ts >? cutoff_year); [|discriminate].
    unfold replace_year. destruct (_ && _); discriminate.
  - discriminate.
  - destruct e'; cbn; try discriminate; intros [= <-]; (split; [discriminate|]);
      exists s; auto.
Qed.

Lemma validate_date_input_escapes_witness :
  validate_date_input (fun _ => Raise AttributeError) (Some "1969-07-16") =
    Raise AttributeError /\
  AttributeError <> ValueError.
Proof.
  split; [reflexivity|].
  exact (proj1 (validate_date_input_escapes (fun _ => Raise AttributeError)
                  (Some "1969-07-16") AttributeError eq_refl)).
Defined.

(* ===================================================================== *)
(** ** Further properties: module initialisation *)
(* ===================================================================== *)

Lemma mapM_Forall2 {A B : Type} (f : A -> result B) (l : list A) (l' : list B) :
  mapM f l = Return l' -> Forall2 (fun x y => f x = Return y) l l'.
Proof.
  revert l'. induction l as [|x l IH]; intros l' H; cbn in H.
  - injection H as <-. constructor.
  - destruct (f x) as [y|] eqn:Ex; [|discriminate]. cbn [bind] in H.
    destruct (mapM f l) as [ys|]; [|discriminate]. cbn [bind] in H.
    injection H as <-. constructor; auto.
Qed.

Lemma mapM_total {A B : Type} (f : A -> result B) (l : list A) :
  (forall x, In x l -> exists y, f x = Return y) -> exists l', mapM f l = Return l'.
Proof.
  induction l as [|x l IH]; intros H; cbn; [eauto|].
  destruct (H x (or_introl eq_refl)) as [y ->].
  destruct IH as [ys ->]; [intros z Hz; apply H; now right|].
  cbn. eauto.
Qed.

(** X5. Starting the program keeps every row of the file, in order: only
    the Launch Date of a row is replaced, by the date [validate_date_input]
    gives for it, and by a missing date when it gives NaT or NaN. A row
    whose date cannot be parsed stays in the table. *)
Theorem load_keeps_rows (to_datetime : datetime_parser) (csv : list CsvRow)
    (app : App) :
  load to_datetime csv = Return (Serving app) ->
  List.length (data app) = List.length csv /\
  Forall2 (fun raw r =>
             Operator r = Operator raw /\ Mission_Type r = Mission_Type raw /\
             Outcome r = Outcome raw /\ passthrough r = passthrough raw /\
             exists c, validate_date_input to_datetime (Launch_Date raw) = Return c /\
                       Launch_Date r = to_datetime64 c)
          csv (data app).
Proof.
  intros Hload. destruct (load_inv _ _ _ Hload) as (Hdata & _).
  apply mapM_Forall2 in Hdata.
  split; [symmetry; exact (Forall2_length Hdata)|].
  eapply Forall2_impl; [|exact Hdata]. cbv beta. intros raw r Hr.
  unfold normalize_row in Hr.
  destruct (validate_date_input to_datetime (Launch_Date raw)) as [c|] eqn:Ec;
    [|discriminate].
  cbn [bind] in Hr. injection Hr as <-. cbn. eauto 10.
Qed.

Lemma load_keeps_rows_witness :
  load iso_to_datetime sample_csv = Return (Serving (app_of sample_csv)) /\
  List.length (data (app_of sample_csv)) = List.length sample_csv.
Proof.
  split; [reflexivity|].
  exact (proj1 (load_keeps_rows iso_to_datetime sample_csv (app_of sample_csv)
                  eq_refl)).
Defined.

Lemma ts_leb_year (a b : Timestamp) :
  (ts_leb a b = true -> year a <= year b) /\
  (ts_leb a b = false -> year b <= year a).
Proof.
  unfold ts_leb, ts_fields. cbn [lex_leb].
  destruct (year a <? year b) eqn:E1; cbn [orb].
  - apply Z.ltb_lt in E1. split; [lia|discriminate].
  - apply Z.ltb_ge in E1. destruct (year a =? year b) eqn:E2; cbn [andb].
    + apply Z.eqb_eq in E2. split; lia.
    + split; [discriminate|lia].
Qed.

Lemma extremum_min_year (l : list Timestamp) (best t : Timestamp) :
  In t (best :: l) -> year (extremum ts_leb best l) <= year t.
Proof.
  revert best t. induction l as [|x l IH]; intros best t Ht.
  - destruct Ht as [<-|[]]. cbn. lia.
  - cbn [extremum].
    assert (Hb : year (if ts_leb x best then x else best) <= year best /\
                 year (if ts_leb x best then x else best) <= year x).
    { destruct (ts_leb x best) eqn:E; split; try lia;
        now apply (ts_leb_year x best). }
    destruct Ht as [<-|[<-|Ht]].
    + apply Z.le_trans with (year (if ts_leb x best then x else best));
        [apply IH; left; reflexivity|tauto].
    + apply Z.le_trans with (year (if ts_leb x best then x else best));
        [apply IH; left; reflexivity|tauto].
    + apply IH. now right.
Qed.

Lemma extremum_max_year (l : list Timestamp) (best t : Timestamp) :
  In t (best :: l) -> year t <= year (extremum (fun a b => ts_leb b a) best l).
Proof.
  revert best t. induction l as [|x l IH]; intros best t Ht.
  - destruct Ht as [<-|[]]. cbn. lia.
  - cbn [extremum].
    assert (Hb : year best <= year (if ts_leb best x then x else best) /\
                 year x <= year (if ts_leb best x then x else best)).
    { destruct (ts_leb best x) eqn:E; split; try lia;
        now apply (ts_leb_year best x). }
    destruct Ht as [<-|[<-|Ht]].
    + apply Z.le_trans with (year (if ts_leb best x then x else best));
        [tauto|apply IH; left; reflexivity].
    + apply Z.le_trans with (year (if ts_leb best x then x else best));
        [tauto|apply IH; left; reflexivity].
    + apply IH. now right.
Qed.

Lemma year_bounds_enclose_aux (to_datetime : datetime_parser) (csv : list CsvRow)
    (app : App) :
  load to_datetime csv = Return (Serving app) ->
  min_allowed_year app <= max_allowed_year app /\
  forall r ts, In r (data app) -> Launch_Date r = Some ts ->
    min_allowed_year app <= year ts <= max_allowed_year app.
Proof.
  intros Hload.
  destruct (load_serving _ _ _ Hload)
    as (lo & hi & _ & Hlo & Hhi & -> & -> & _).
  assert (Hall : forall t, In (Some t) (map Launch_Date (data app)) ->
                   year lo <= year t <= year hi).
  { intros t Ht. apply dropna_In in Ht.
    unfold series_min, series_max in Hlo, Hhi.
    destruct (dropna (map Launch_Date (data app))) as [|t0 l]; [discriminate|].
    injection Hlo as <-. injection Hhi as <-.
    split; [now apply extremum_min_year|now apply extremum_max_year]. }
  split.
  - apply series_min_In in Hlo. specialize (Hall lo Hlo). lia.
  - intros r ts Hr Hts. apply Hall. rewrite <- Hts. now apply in_map.
Qed.

(** X6. After a start with year bounds, that is a start on a table in
    which some row has a date, each bound is the year of the date of a row
    and the two bounds enclose the table:
    [min_allowed_year <= max_allowed_year], the year of every Launch Date
    of the table lies between them, and so do both bounds of every
    validated range. *)
Theorem year_bounds_enclose (to_datetime : datetime_parser) (csv : list CsvRow)
    (app : App) :
  load to_datetime csv = Return (Serving app) ->
  (exists r ts, In r (data app) /\ Launch_Date r = Some ts /\
                year ts = min_allowed_year app) /\
  (exists r ts, In r (data app) /\ Launch_Date r = Some ts /\
                year ts = max_allowed_year app) /\
  min_allowed_year app <= max_allowed_year app /\
  (forall r ts, In r (data app) -> Launch_Date r = Some ts ->
     min_allowed_year app <= year ts <= max_allowed_year app) /\
  (forall start_year end_year,
     let years := validate_year_range app start_year end_year in
     min_allowed_year app <= fst years <= max_allowed_year app /\
     min_allowed_year app <= snd years <= max_allowed_year app).
Proof.
  intros Hload.
  destruct (year_bounds_enclose_aux _ _ _ Hload) as [Hle Hrows].
  destruct (load_inv _ _ _ Hload) as (_ & _ & _ & _ & Hlo & Hhi).
  split.
  { destruct Hlo as (lo & Hlo & ->). apply in_map_iff in Hlo as (r & Hr & Hin).
    exists r, lo. auto. }
  split.
  { destruct Hhi as (hi & Hhi & ->). apply in_map_iff in Hhi as (r & Hr & Hin).
    exists r, hi. auto. }
  split; [exact Hle|]. split; [exact Hrows|].
  intros s e. cbv zeta. unfold validate_year_range.
  destruct ((min_allowed_year app <=? s) && (s <=? max_allowed_year app) &&
            ((min_allowed_year app <=? e) && (e <=? max_allowed_year app))) eqn:E;
    cbn [fst snd]; [|lia].
  repeat (apply andb_true_iff in E as [E ?]).
  repeat match goal with H : (_ <=? _) = true |- _ => apply Z.leb_le in H end.
  lia.
Qed.

Lemma year_bounds_enclose_witness :
  load iso_to_datetime sample_csv = Return (Serving (app_of sample_csv)) /\
  min_allowed_year (app_of sample_csv) <= max_allowed_year (app_of sample_csv).
Proof.
  split; [reflexivity|].
  exact (proj1 (proj2 (proj2 (year_bounds_enclose iso_to_datetime sample_csv
                                (app_of sample_csv) eq_refl)))).
Defined.

Lemma first_word_prefix (s : string) : String.prefix (first_word s) s = true.
Proof.
  induction s as [|c s IH]; [reflexivity|]. cbn [first_word].
  destruct (c =? " ")%char; [reflexivity|]. cbn [String.prefix].
  destruct (ascii_dec c c); [exact IH|contradiction].
Qed.

Lemma first_word_no_space (s : string) :
  ~ In " "%char (list_ascii_of_string (first_word s)).
Proof.
  induction s as [|c s IH]; [intros []|]. cbn [first_word].
  destruct (c =? " ")%char eqn:E; [intros []|].
  cbn. intros [->|H]; [|contradiction]. now rewrite Ascii.eqb_refl in E.
Qed.

Lemma prefix_str_contains (pat s : string) :
  String.prefix pat s = true -> str_contains pat s = true.
Proof. intros H. destruct s; cbn [str_contains]; now rewrite H. Qed.

(** X7. After a successful start every entry of [allowed_fails] is the
    first word of the Outcome of a row of [fail]: it holds no space, it
    starts that Outcome, and that Outcome contains "fail". *)
Theorem allowed_fails_are_prefixes (to_datetime : datetime_parser)
    (csv : list CsvRow) (app : App) (category : string) :
  load to_datetime csv = Return (Serving app) ->
  In category (allowed_fails app) ->
  ~ In " "%char (list_ascii_of_string category) /\
  exists r o,
    In r (fail app) /\ In r (data app) /\ Outcome r = Some o /\
    category = first_word o /\ String.prefix category o = true /\
    str_contains "fail" o = true.
Proof.
  intros Hload Hc.
  destruct (load_inv _ _ _ Hload) as (_ & _ & Hfail & Hallowed & _).
  rewrite Hallowed in Hc. apply in_map_iff in Hc as (o & <- & Ho).
  apply (proj1 (unique_In String.eqb String.eqb_eq _ _)) in Ho.
  apply (proj1 (dropna_In _ _)) in Ho. apply in_map_iff in Ho as (r & Hro & Hr).
  split; [apply first_word_no_space|].
  exists r, o. split; [assumption|].
  rewrite Hfail in Hr. apply filter_In in Hr as [Hr Hf].
  unfold outcome_contains in Hf. rewrite Hro in Hf.
  repeat split; auto. apply first_word_prefix.
Qed.

Lemma allowed_fails_are_prefixes_witness :
  load iso_to_datetime sample_csv = Return (Serving (app_of sample_csv)) /\
  In "Partial" (allowed_fails (app_of sample_csv)) /\
  ~ In " "%char (list_ascii_of_string "Partial").
Proof.
  split; [reflexivity|].
  assert (H : In "Partial" (allowed_fails (app_of sample_csv)))
    by (right; left; reflexivity).
  split; [exact H|].
  exact (proj1 (allowed_fails_are_prefixes iso_to_datetime sample_csv
                  (app_of sample_csv) "Partial" eq_refl H)).
Defined.

Lemma validate_date_input_returns (to_datetime : datetime_parser)
    (date : option string) :
  parser_contract to_datetime ->
  exists c, validate_date_input to_datetime date = Return c.
Proof.
  intros Hc. destruct date as [s|]; [|now exists NaT].
  destruct (to_datetime s) as [[ts|]|e] eqn:E.
  - eexists. exact (validate_date_input_parsed _ _ _ Hc E).
  - exists NaT. unfold validate_date_input. now rewrite E.
  - exists NaN. unfold validate_date_input. rewrite E.
    destruct Hc as [Hc _]. now rewrite (Hc s e E).
Qed.

Lemma Forall2_In_l {A B : Type} (R : A -> B -> Prop) (l : list A) (l' : list B)
    (x : A) :
  Forall2 R l l' -> In x l -> exists y, In y l' /\ R x y.
Proof.
  induction 1 as [|a b l l' Hab _ IH]; intros Hx; [destruct Hx|].
  destruct Hx as [<-|Hx].
  - exists b. split; [now left|assumption].
  - destruct (IH Hx) as (y & Hy & Hr). exists y. split; [now right|assumption].
Qed.

Lemma Forall2_In_r {A B : Type} (R : A -> B -> Prop) (l : list A) (l' : list B)
    (y : B) :
  Forall2 R l l' -> In y l' -> exists x, In x l /\ R x y.
Proof.
  induction 1 as [|a b l l' Hab _ IH]; intros Hy; [destruct Hy|].
  destruct Hy as [<-|Hy].
  - exists a. split; [now left|assumption].
  - destruct (IH Hy) as (x & Hx & Hr). exists x. split; [now right|assumption].
Qed.

(** X8. A file with an empty Outcome cell cannot be served: when some date
    of the file parses, so that the year bounds exist, and some Outcome is
    filled in, so that the column holds text, the selection of the failed
    missions at start-up raises [ValueError], because [str.contains] leaves
    a missing value in the mask. *)
Theorem load_missing_outcome (to_datetime : datetime_parser) (csv : list CsvRow) :
  parser_contract to_datetime ->
  (exists raw s ts, In raw csv /\ Launch_Date raw = Some s /\
                    to_datetime s = Return (Some ts)) ->
  (exists raw o, In raw csv /\ Outcome raw = Some o) ->
  (exists raw, In raw csv /\ Outcome raw = None) ->
  load to_datetime csv = Raise ValueError.
Proof.
  intros Hc (raw1 & s & ts & Hin1 & Hd1 & Hp1) _ (raw2 & Hin2 & Ho2).
  destruct (mapM_total (fun r => validate_date_input to_datetime (Launch_Date r)) csv)
    as [cells Hcells].
  { intros x _. apply (validate_date_input_returns to_datetime _ Hc). }
  destruct (mapM_total (normalize_row to_datetime) csv) as [df Hdf].
  { intros x _. unfold normalize_row.
    destruct (validate_date_input_returns to_datetime (Launch_Date x) Hc) as [c ->].
    cbn. eauto. }
  assert (Hdt : is_datetime_column cells = true).
  { destruct (Forall2_In_l _ _ _ _ (mapM_Forall2 _ _ _ Hcells) Hin1)
      as (c1 & Hc1 & Hv1).
    cbv beta in Hv1.
    rewrite Hd1, (validate_date_input_parsed _ _ _ Hc Hp1) in Hv1.
    injection Hv1 as <-.
    apply existsb_exists. eexists. split; [exact Hc1|reflexivity]. }
  destruct (Forall2_In_l _ _ _ _ (mapM_Forall2 _ _ _ Hdf) Hin2) as (r2 & Hr2 & Hn2).
  unfold normalize_row in Hn2.
  destruct (validate_date_input to_datetime (Launch_Date raw2)) as [c2|];
    [|discriminate].
  cbn in Hn2. injection Hn2 as Hn2.
  unfold load. rewrite Hcells, Hdf. cbn [bind]. rewrite Hdt.
  cbn [year_of_extreme bind].
  unfold str_contains_series. rewrite map_map, boolean_index_spec. cbv beta.
  match goal with
  | |- context [existsb ?f df] => replace (existsb f df) with true; [reflexivity|]
  end.
  symmetry. apply existsb_exists. exists r2. split; [assumption|].
  subst r2. cbn. now rewrite Ho2.
Qed.

Lemma load_missing_outcome_witness :
  parser_contract iso_to_datetime /\
  load iso_to_datetime
    [csv_row "1969-07-16" "United States" "Lander" "Successful";
     mkRow (Some "1970-09-12") (Some "Soviet Union") (Some "Lander") None []]
  = Raise ValueError.
Proof.
  split; [exact iso_to_datetime_contract|].
  apply (load_missing_outcome iso_to_datetime _ iso_to_datetime_contract).
  - exists (csv_row "1969-07-16" "United States" "Lander" "Successful"),
      "1969-07-16", (midnight 1969 7 16).
    split; [now left|]. split; reflexivity.
  - exists (csv_row "1969-07-16" "United States" "Lander" "Successful"), "Successful".
    split; [now left|reflexivity].
  - eexists. split; [right; left; reflexivity|reflexivity].
Defined.

Lemma normalize_rows_dates (to_datetime : datetime_parser) (csv : list CsvRow)
    (cells : list date_cell) (df : DataFrame) :
  mapM (fun r => validate_date_input to_datetime (Launch_Date r)) csv = Return cells ->
  mapM (normalize_row to_datetime) csv = Return df ->
  map Launch_Date df = map to_datetime64 cells.
Proof.
  revert cells df. induction csv as [|raw csv IH]; intros cells df Hc Hd; cbn in *.
  - injection Hc as <-. injection Hd as <-. reflexivity.
  - unfold normalize_row in Hd at 1.
    destruct (validate_date_input to_datetime (Launch_Date raw)) as [c|];
      [|discriminate].
    cbn [bind] in *.
    destruct (mapM (fun r => validate_date_input to_datetime (Launch_Date r)) csv)
      as [cs|]; [|discriminate].
    destruct (mapM (normalize_row to_datetime) csv) as [rows|]; [|discriminate].
    cbn [bind] in *. injection Hc as <-. injection Hd as <-.
    cbn. f_equal. now apply IH.
Qed.

Lemma series_min_none (col : list (option Timestamp)) :
  series_min col = None -> forall t, ~ In (Some t) col.
Proof.
  unfold series_min. intros H t Ht. apply dropna_In in Ht.
  destruct (dropna col); [destruct Ht|discriminate].
Qed.

Lemma series_max_none (col : list (option Timestamp)) :
  series_max col = None -> forall t, ~ In (Some t) col.
Proof.
  unfold series_max. intros H t Ht. apply dropna_In in Ht.
  destruct (dropna col); [destruct Ht|discriminate].
Qed.

(** X22. How the program starts depends on the Launch Date column. It
    serves with year bounds only when some row has a date. It serves
    without them (both bounds are NaN) only when no row has a date and some
    cell of the column is empty. When the file has rows and none of their
    dates parses, every value of the column is the float NaN and reading
    [.year] of its minimum raises [AttributeError]: the program does not
    start. *)
Theorem load_start_kinds (to_datetime : datetime_parser) (csv : list CsvRow) :
  (forall app, load to_datetime csv = Return (Serving app) ->
     exists r ts, In r (data app) /\ Launch_Date r = Some ts) /\
  (forall data fail allowed_fails,
     load to_datetime csv = Return (ServingWithoutYears data fail allowed_fails) ->
     (forall r, In r data -> Launch_Date r = None) /\
     exists raw, In raw csv /\
       validate_date_input to_datetime (Launch_Date raw) = Return NaT) /\
  (csv <> [] ->
   (forall raw, In raw csv ->
      validate_date_input to_datetime (Launch_Date raw) = Return NaN) ->
   load to_datetime csv = Raise AttributeError).
Proof.
  split; [|split].
  - intros app Hload.
    destruct (load_inv _ _ _ Hload) as (_ & _ & _ & _ & (lo & Hlo & _) & _).
    apply in_map_iff in Hlo as (r & Hr & Hin). eauto.
  - intros df fl af. unfold load. intros H.
    destruct (mapM (fun r => validate_date_input to_datetime (Launch_Date r)) csv)
      as [cells|] eqn:Hcells; [|discriminate].
    cbn [bind] in H.
    destruct (mapM (normalize_row to_datetime) csv) as [df0|] eqn:Hdf; [|discriminate].
    cbn [bind] in H. unfold year_of_extreme in H.
    destruct (is_datetime_column cells) eqn:Hdt; [|discriminate]. cbn [bind] in H.
    destruct (boolean_index df0 _) as [fl0|]; [|discriminate]. cbn [bind] in H.
    destruct (mapM first_word_of _) as [af0|]; [|discriminate]. cbn [bind] in H.
    pose proof (normalize_rows_dates _ _ _ _ Hcells Hdf) as Hdates.
    assert (Hnone : forall t, ~ In (Some t) (map Launch_Date df0)).
    { destruct (series_min (map Launch_Date df0)) as [lo|] eqn:Elo.
      - destruct (series_max (map Launch_Date df0)) as [hi|] eqn:Ehi;
          [discriminate|].
        now apply series_max_none.
      - now apply series_min_none. }
    assert (Hdf0 : df0 = df).
    { destruct (series_min (map Launch_Date df0)), (series_max (map Launch_Date df0));
        cbn [option_map] in H; congruence. }
    subst df0. split.
    + intros r Hr. destruct (Launch_Date r) as [t|] eqn:Et; [|reflexivity].
      exfalso. apply (Hnone t). rewrite <- Et. now apply in_map.
    + unfold is_datetime_column in Hdt. apply existsb_exists in Hdt as (c & Hc & Hn).
      destruct (Forall2_In_r _ _ _ _ (mapM_Forall2 _ _ _ Hcells) Hc)
        as (raw & Hraw & Hv).
      exists raw. split; [assumption|]. cbv beta in Hv. rewrite Hv. f_equal.
      destruct c as [t| |]; [|reflexivity|discriminate].
      exfalso. apply (Hnone t). rewrite Hdates.
      change (Some t) with (to_datetime64 (Ts t)). now apply in_map.
  - intros Hne Hall.
    destruct (mapM_total (fun r => validate_date_input to_datetime (Launch_Date r)) csv)
      as [cells Hcells]; [intros x Hx; rewrite (Hall x Hx); eauto|].
    destruct (mapM_total (normalize_row to_datetime) csv) as [df Hdf].
    { intros x Hx. unfold normalize_row. rewrite (Hall x Hx). cbn. eauto. }
    assert (Hdt : is_datetime_column cells = false).
    { apply Bool.not_true_iff_false. intros Hdt.
      apply existsb_exists in Hdt as (c & Hc & Hn).
      destruct (Forall2_In_r _ _ _ _ (mapM_Forall2 _ _ _ Hcells) Hc)
        as (raw & Hraw & Hv).
      cbv beta in Hv. rewrite (Hall raw Hraw) in Hv. injection Hv as <-.
      discriminate. }
    unfold load. rewrite Hcells, Hdf. cbn [bind]. now rewrite Hdt.
Qed.

(* ===================================================================== *)
(** ** Further properties: the year range of the charts *)
(* ===================================================================== *)

Lemma validate_year_range_inside (app : App) (start_year end_year : Z) :
  min_allowed_year app <= start_year <= max_allowed_year app ->
  min_allowed_year app <= end_year <= max_allowed_year app ->
  validate_year_range app start_year end_year = (start_year, end_year).
Proof.
  intros H1 H2. unfold validate_year_range.
  replace (min_allowed_year app <=? start_year) with true by (symmetry; apply Z.leb_le; lia).
  replace (start_year <=? max_allowed_year app) with true by (symmetry; apply Z.leb_le; lia).
  replace (min_allowed_year app <=? end_year) with true by (symmetry; apply Z.leb_le; lia).
  replace (end_year <=? max_allowed_year app) with true by (symmetry; apply Z.leb_le; lia).
  reflexivity.
Qed.

Lemma filter_nil_all_false {A : Type} (p : A -> bool) (l : list A) :
  (forall x, In x l -> p x = false) -> filter p l = [].
Proof.
  intros H. induction l as [|x l IH]; [reflexivity|]. cbn.
  rewrite (H x) by now left. apply IH. intros y Hy. apply H. now right.
Qed.

(** X9. After a start with year bounds the full range
    [[min_allowed_year, max_allowed_year]], the initial value of the
    slider, passes validation unchanged and, with "All Countries", the
    handler returns the charts of every row of the table that has a Launch
    Date, of which there is at least one: only the rows without a date are
    left out. *)
Theorem full_range_selects_dated_rows (to_datetime : datetime_parser)
    (csv : list CsvRow) (app : App) :
  parser_contract to_datetime ->
  load to_datetime csv = Return (Serving app) ->
  validate_year_range app (min_allowed_year app) (max_allowed_year app) =
    (min_allowed_year app, max_allowed_year app) /\
  filter has_date (data app) <> [] /\
  get_charts_by_country app "All Countries"
    (min_allowed_year app, max_allowed_year app) =
    Return (charts_of_records (data app) (filter has_date (data app))
              "All Countries").
Proof.
  intros Hc Hload.
  destruct (year_bounds_enclose_aux to_datetime csv app Hload) as [Hle Hrows].
  assert (Hv : validate_year_range app (min_allowed_year app) (max_allowed_year app) =
               (min_allowed_year app, max_allowed_year app))
    by (apply validate_year_range_inside; lia).
  assert (Hne : filter has_date (data app) <> []).
  { destruct (load_inv _ _ _ Hload) as (_ & _ & _ & _ & (lo & Hlo & _) & _).
    apply in_map_iff in Hlo as (r & Hr & Hin).
    assert (Hf : In r (filter has_date (data app))).
    { apply filter_In. split; [assumption|]. unfold has_date. now rewrite Hr. }
    intros E. rewrite E in Hf. destruct Hf. }
  split; [exact Hv|]. split; [exact Hne|].
  rewrite (get_charts_by_country_loaded _ _ _ _ _ Hc Hload). cbn [fst snd].
  rewrite Hv. cbn [fst snd].
  change (validate_country_input "All Countries") with "All Countries".
  unfold charts_record_set. cbn [String.eqb Ascii.eqb Bool.eqb orb].
  replace (filter (year_in_range (min_allowed_year app) (max_allowed_year app))
             (data app))
    with (filter has_date (data app)).
  - destruct (filter has_date (data app)); [contradiction|reflexivity].
  - apply filter_ext_in. intros r Hr. unfold year_in_range, has_date.
    destruct (Launch_Date r) as [ts|] eqn:Ets; [|reflexivity].
    destruct (Hrows r ts Hr Ets). cbn. symmetry.
    apply andb_true_iff. split; apply Z.leb_le; lia.
Qed.

Lemma full_range_selects_dated_rows_witness :
  parser_contract iso_to_datetime /\
  load iso_to_datetime sample_csv = Return (Serving (app_of sample_csv)) /\
  get_charts_by_country (app_of sample_csv) "All Countries" (1966, 2019) =
    Return (charts_of_records (data (app_of sample_csv))
              (filter has_date (data (app_of sample_csv))) "All Countries").
Proof.
  split; [exact iso_to_datetime_contract|]. split; [reflexivity|].
  exact (proj2 (proj2 (full_range_selects_dated_rows iso_to_datetime sample_csv
                         (app_of sample_csv) iso_to_datetime_contract eq_refl))).
Defined.

(** X10. The validator does not order the two bounds: a range whose start
    lies after its end, both inside the bounds, is kept as it is, no row
    has a year in it, and, on a table with some Operator filled in (so
    that the column holds text), the handler raises [ValueError] for every
    country, from the scatter plot of no rows. *)
Theorem inverted_range_raises (to_datetime : datetime_parser) (csv : list CsvRow)
    (app : App) (entered_country : string) (start_year end_year : Z) :
  parser_contract to_datetime ->
  load to_datetime csv = Return (Serving app) ->
  (exists r o, In r (data app) /\ Operator r = Some o) ->
  min_allowed_year app <= end_year -> end_year < start_year ->
  start_year <= max_allowed_year app ->
  validate_year_range app start_year end_year = (start_year, end_year) /\
  charts_record_set (data app) (validate_country_input entered_country)
    start_year end_year = [] /\
  get_charts_by_country app entered_country (start_year, end_year) =
    Raise ValueError.
Proof.
  intros Hc Hload _ H1 H2 H3.
  assert (Hv : validate_year_range app start_year end_year = (start_year, end_year))
    by (apply validate_year_range_inside; lia).
  assert (He : filter (year_in_range start_year end_year) (data app) = []).
  { apply filter_nil_all_false. intros r _. unfold year_in_range.
    destruct (Launch_Date r) as [ts|]; [|reflexivity].
    apply andb_false_iff.
    destruct (Z.leb_spec start_year (year ts)); [right; apply Z.leb_gt; lia|now left]. }
  assert (Hr : charts_record_set (data app) (validate_country_input entered_country)
                 start_year end_year = []).
  { unfold charts_record_set. rewrite He. now destruct (_ =? _)%string. }
  split; [exact Hv|]. split; [exact Hr|].
  rewrite (get_charts_by_country_loaded _ _ _ _ _ Hc Hload). cbn [fst snd].
  rewrite Hv. cbn [fst snd]. rewrite Hr. now destruct (_ || _).
Qed.

Lemma inverted_range_raises_witness :
  parser_contract iso_to_datetime /\
  load iso_to_datetime sample_csv = Return (Serving (app_of sample_csv)) /\
  get_charts_by_country (app_of sample_csv) "Japan" (1990, 1970) = Raise ValueError.
Proof.
  split; [exact iso_to_datetime_contract|]. split; [reflexivity|].
  refine (proj2 (proj2 (inverted_range_raises iso_to_datetime sample_csv
                          (app_of sample_csv) "Japan" 1990 1970
                          iso_to_datetime_contract eq_refl _ _ _ _)));
    [eexists _, "Soviet Union"; split; [left; reflexivity|reflexivity]|..];
    vm_compute; congruence.
Defined.

(** X19. What the handler can answer after a start with year bounds, on
    a table with some Operator filled in (so that the column holds text).
    It raises [ValueError], and nothing else, in two cases: a country is
    selected and a row of the year range has no Operator, or no record is
    left to draw. It never answers with the generic message, since the
    step inside the [try] cannot raise on a column of dates. In every other
    case it returns the three charts. *)
Theorem get_charts_by_country_outcomes (to_datetime : datetime_parser)
    (csv : list CsvRow) (app : App) (entered_country : string)
    (entered_years : Z * Z) :
  parser_contract to_datetime ->
  load to_datetime csv = Return (Serving app) ->
  (exists r o, In r (data app) /\ Operator r = Some o) ->
  let country := validate_country_input entered_country in
  let years := validate_year_range app (fst entered_years) (snd entered_years) in
  let year_df := filter (year_in_range (fst years) (snd years)) (data app) in
  let records := charts_record_set (data app) country (fst years) (snd years) in
  (get_charts_by_country app entered_country entered_years = Raise ValueError <->
   (country <> "All Countries" /\ exists r, In r year_df /\ Operator r = None) \/
   records = []) /\
  (forall e, get_charts_by_country app entered_country entered_years = Raise e ->
             e = ValueError) /\
  (forall text, get_charts_by_country app entered_country entered_years <>
                Return (ErrorMessage text)) /\
  (country = "All Countries" \/ (forall r, In r year_df -> Operator r <> None) ->
   records <> [] ->
   exists pie scatter heatmap,
     get_charts_by_country app entered_country entered_years =
       Return (Graphs pie scatter heatmap)).
Proof.
  intros Hc Hload _. cbv zeta.
  rewrite (get_charts_by_country_loaded _ _ _ _ _ Hc Hload). cbv zeta.
  unfold charts_record_set.
  set (country := validate_country_input entered_country).
  set (year_df := filter _ (data app)).
  unfold charts_of_records.
  destruct (country =? "All Countries")%string eqn:Ec; cbn [orb].
  - apply String.eqb_eq in Ec. destruct year_df as [|r0 rest] eqn:Ey.
    + split; [split; [intros _; now right|reflexivity]|].
      split; [now intros e [= <-]|]. split; [discriminate|].
      intros _ Hne. now contradiction Hne.
    + split; [split; [discriminate|]|].
      { intros [[Hn _]|Hn]; [contradiction|discriminate]. }
      split; [discriminate|]. split; [discriminate|eauto].
  - apply String.eqb_neq in Ec.
    destruct (operators_present year_df) eqn:Ep.
    + destruct (filter (operator_contains country) year_df) as [|r0 rest] eqn:Ef.
      * split; [split; [intros _; now right|reflexivity]|].
        split; [now intros e [= <-]|]. split; [discriminate|].
        intros _ Hne. now contradiction Hne.
      * split; [split; [discriminate|]|].
        { intros [[_ Hn]|Hn]; [|discriminate].
          apply operators_present_false in Hn. congruence. }
        split; [discriminate|]. split; [discriminate|eauto].
    + pose proof (proj1 (operators_present_false year_df) Ep) as Hmiss.
      split; [split; [intros _; left; now split|reflexivity]|].
      split; [now intros e [= <-]|]. split; [discriminate|].
      intros [H|H] _; [contradiction|]. exfalso.
      destruct Hmiss as (r & Hr & Ho). now apply (H r Hr).
Qed.

Lemma get_charts_by_country_outcomes_witness :
  parser_contract iso_to_datetime /\
  load iso_to_datetime sample_csv = Return (Serving (app_of sample_csv)) /\
  (exists r o, In r (data (app_of sample_csv)) /\ Operator r = Some o) /\
  forall text,
    get_charts_by_country (app_of sample_csv) "United States" (1969, 1972) <>
      Return (ErrorMessage text).
Proof.
  assert (Htext : exists r o,
            In r (data (app_of sample_csv)) /\ Operator r = Some o)
    by (eexists _, "Soviet Union"; split; [left; reflexivity|reflexivity]).
  split; [exact iso_to_datetime_contract|]. split; [reflexivity|].
  split; [exact Htext|].
  exact (proj1 (proj2 (proj2 (get_charts_by_country_outcomes iso_to_datetime
                                sample_csv (app_of sample_csv)
                                "United States" (1969, 1972)
                                iso_to_datetime_contract eq_refl Htext)))).
Defined.

(* ===================================================================== *)
(** ** Further properties: what the charts hold *)
(* ===================================================================== *)

(** X11. Whenever [get_charts_by_country] returns its charts, the scatter
    plot gets as many x values as y values. The x values are the dates of
    the records, each once and none missing; the y values are the counts of
    the same dates, the largest first. So x and y list the same dates, but
    not in the same order: x is in order of first appearance and y in
    order of count, and the chart pairs them by position. *)
Theorem scatter_axes_agree (app : App) (entered_country : string)
    (entered_years : Z * Z) (pie : Pie) (scatter : Scatter) (heatmap : Heatmap) :
  get_charts_by_country app entered_country entered_years =
    Return (Graphs pie scatter heatmap) ->
  List.length (scatter_x scatter) = List.length (scatter_y scatter) /\
  ~ In None (scatter_x scatter) /\
  NoDup (scatter_x scatter) /\
  NoDup (map fst (scatter_y scatter)) /\
  Permutation (scatter_x scatter) (map Some (map fst (scatter_y scatter))) /\
  Sorted by_count_desc (scatter_y scatter) /\
  (forall t n, In (t, n) (scatter_y scatter) -> 0 < n).
Proof.
  intros H. rewrite get_charts_by_country_closed in H. cbv zeta in H.
  set (year_df := filter _ (data app)) in H.
  set (R := if (_ =? _)%string then _ else _) in H.
  assert (HR : forall r, In r R -> has_date r = true).
  { intros r Hr. apply (year_text_in_range_dated
                          (fst (validate_year_range app (fst entered_years)
                                  (snd entered_years)))
                          (snd (validate_year_range app (fst entered_years)
                                  (snd entered_years)))).
    subst R. destruct (_ =? _)%string.
    - now apply filter_In in Hr as [_ Hr].
    - apply filter_In in Hr as [Hr _]. now apply filter_In in Hr as [_ Hr]. }
  destruct (_ || _); [|discriminate].
  destruct R as [|r0 rest] eqn:ER; [discriminate|]. rewrite <- ER in *.
  unfold charts_of_records in H. injection H as _ <- _.
  cbn [scatter_x scatter_y]. rewrite (dated_rows_unique R HR).
  set (D := dropna (map Launch_Date R)).
  split; [|split; [|split; [|split; [|split; [|split]]]]].
  - rewrite (value_counts_length ts_eqb). apply length_map.
  - intros Hn. apply in_map_iff in Hn as (t & Ht & _). discriminate.
  - apply NoDup_map_Some, (unique_NoDup ts_eqb ts_eqb_eq).
  - apply (value_counts_NoDup ts_eqb ts_eqb_eq).
  - apply Permutation_map, (value_counts_keys ts_eqb).
  - apply value_counts_sorted.
  - intros t n Hn. apply (value_counts_In ts_eqb ts_eqb_eq) in Hn as [-> Hn].
    now apply (count_eqb_pos ts_eqb ts_eqb_eq).
Qed.

Lemma scatter_axes_agree_witness :
  exists pie scatter heatmap,
    get_charts_by_country (app_of sample_csv) "United States" (1969, 1972) =
      Return (Graphs pie scatter heatmap) /\
    List.length (scatter_x scatter) = List.length (scatter_y scatter).
Proof.
  assert (H : exists pie scatter heatmap,
            get_charts_by_country (app_of sample_csv) "United States" (1969, 1972) =
              Return (Graphs pie scatter heatmap)).
  { vm_compute. eexists _, _, _. reflexivity. }
  destruct H as (p & sc & h & H). exists p, sc, h. split; [exact H|].
  exact (proj1 (scatter_axes_agree _ _ _ _ _ _ H)).
Defined.

(** X21. The scatter plot pairs its x and y values by position, and the
    two are ordered differently. On a table with one launch on a first
    date and two on a later date the first point gets the first date with
    the count of the later one. *)
Theorem scatter_pairs_by_position :
  load iso_to_datetime csv_repeated_date =
    Return (Serving (app_of csv_repeated_date)) /\
  exists pie scatter heatmap,
    get_charts_by_country (app_of csv_repeated_date) "All Countries" (1969, 1970) =
      Return (Graphs pie scatter heatmap) /\
    scatter_x scatter = [Some (midnight 1969 7 16); Some (midnight 1970 4 11)] /\
    scatter_y scatter = [(midnight 1970 4 11, 2); (midnight 1969 7 16, 1)].
Proof.
  split; [reflexivity|]. vm_compute. eexists _, _, _. repeat split.
Qed.

Lemma count_rows_le_length {A : Type} (p : A -> bool) (l : list A) :
  count_rows p l <= Z.of_nat (List.length l).
Proof. unfold count_rows. pose proof (filter_length_le p l). lia. Qed.

(** X12. After a successful start the three charts of a request account
    for the same records: the pie counts and the scatter counts both add up
    to the number of records of the record set, and the cells of the
    matrix add up to the number of those records that have a Mission Type,
    which is all of them when no Mission Type cell of the table is empty. *)
Theorem charts_totals_agree (to_datetime : datetime_parser) (csv : list CsvRow)
    (app : App) (entered_country : string) (entered_years : Z * Z)
    (pie : Pie) (scatter : Scatter) (heatmap : Heatmap) :
  parser_contract to_datetime ->
  load to_datetime csv = Return (Serving app) ->
  get_charts_by_country app entered_country entered_years =
    Return (Graphs pie scatter heatmap) ->
  let years := validate_year_range app (fst entered_years) (snd entered_years) in
  let records :=
    charts_record_set (data app) (validate_country_input entered_country)
      (fst years) (snd years) in
  sum_Z (map snd (pie_names_values pie)) = Z.of_nat (List.length records) /\
  sum_Z (map snd (scatter_y scatter)) = Z.of_nat (List.length records) /\
  frame_total (heatmap_z heatmap) =
    count_rows (fun r => negb (is_none (Mission_Type r))) records /\
  frame_total (heatmap_z heatmap) <= Z.of_nat (List.length records).
Proof.
  intros Hc Hload H years records.
  rewrite (get_charts_by_country_loaded _ _ _ _ _ Hc Hload) in H.
  cbv zeta in H. fold years records in H.
  destruct (_ || _); [|discriminate].
  destruct records as [|r0 rest] eqn:ER; [discriminate|]. rewrite <- ER in *.
  unfold charts_of_records in H. injection H as <- <- <-.
  cbn [create_pie pie_names_values scatter_y create_heatmap heatmap_z].
  destruct (load_inv _ _ _ Hload) as (_ & Hout & _).
  assert (Hsub : forall r, In r records -> In r (data app) /\ has_date r = true).
  { intros r Hr. exact (charts_record_set_In _ _ _ _ _ Hr). }
  assert (Hro : outcomes_present records = true).
  { unfold outcomes_present in *. rewrite forallb_forall in *.
    intros r Hr. apply Hout. now apply Hsub. }
  assert (Hmatrix : frame_total (create_matrix_for_heatmap (data app) records) =
                    count_rows (fun r => negb (is_none (Mission_Type r))) records).
  { rewrite create_matrix_for_heatmap_eq. cbv zeta. unfold frame_total.
    cbn [columns]. rewrite map_map. cbn [snd].
    rewrite matrix_total.
    - unfold count_rows. do 2 f_equal. apply filter_ext_in. intros r Hr.
      unfold both_present. unfold outcomes_present in Hro.
      rewrite forallb_forall in Hro. rewrite (Hro r Hr). apply andb_true_r.
    - apply (unique_NoDup label_eqb label_eqb_eq).
    - apply (unique_NoDup label_eqb label_eqb_eq).
    - intros row Hrow. apply Hsub in Hrow as [Hrow _].
      split; apply (unique_In label_eqb label_eqb_eq); now apply in_map. }
  split; [|split; [|split]].
  - rewrite (value_counts_sum String.eqb String.eqb_eq). f_equal.
    exact (present_outcomes_length records Hro).
  - rewrite (value_counts_sum ts_eqb ts_eqb_eq). f_equal.
    refine (proj2 (dated_rows_column records _)).
    intros r Hr. now apply Hsub.
  - exact Hmatrix.
  - eapply Z.le_trans; [apply Z.eq_le_incl; exact Hmatrix|].
    apply count_rows_le_length.
Qed.

Lemma charts_totals_agree_witness :
  parser_contract iso_to_datetime /\
  load iso_to_datetime sample_csv = Return (Serving (app_of sample_csv)) /\
  exists pie scatter heatmap,
    get_charts_by_country (app_of sample_csv) "United States" (1969, 1972) =
      Return (Graphs pie scatter heatmap) /\
    sum_Z (map snd (pie_names_values pie)) = 3 /\
    sum_Z (map snd (scatter_y scatter)) = 3 /\
    frame_total (heatmap_z heatmap) = 3.
Proof.
  split; [exact iso_to_datetime_contract|]. split; [reflexivity|].
  assert (H : exists pie scatter heatmap,
            get_charts_by_country (app_of sample_csv) "United States" (1969, 1972) =
              Return (Graphs pie scatter heatmap)).
  { vm_compute. eexists _, _, _. reflexivity. }
  destruct H as (p & sc & h & H). exists p, sc, h. split; [exact H|].
  destruct (charts_totals_agree iso_to_datetime sample_csv (app_of sample_csv)
              "United States" (1969, 1972) p sc h
              iso_to_datetime_contract eq_refl H)
    as (Hp & Hs & Hm & _).
  rewrite Hp, Hs, Hm. vm_compute. repeat split.
Defined.

(* ===================================================================== *)
(** ** Further properties: the failure bar chart *)
(* ===================================================================== *)

Lemma validate_fail_input_In (app : App) (value category : string) :
  validate_fail_input app value = Return category ->
  In category (allowed_fails app).
Proof.
  unfold validate_fail_input.
  destruct (str_in value (allowed_fails app)) eqn:E.
  - intros [= <-]. now apply str_in_In.
  - destruct (allowed_fails app); [discriminate|]. intros [= <-]. now left.
Qed.

(** X13. After a start with year bounds, on a table with some Operator
    filled in (so that the column holds text), [get_bar_chart] fails in
    three ways only: with [IndexError] when the table has no failed
    mission, whatever the input; with the exception of the regular
    expression engine when the validated category does not compile; and,
    for a category that compiles, with [ValueError] exactly when a selected
    failure record has an empty Operator cell. Otherwise it returns the
    chart. *)
Theorem get_bar_chart_errors (regex : regex_engine) (to_datetime : datetime_parser)
    (csv : list CsvRow) (app : App) (entered_fail : string) :
  load to_datetime csv = Return (Serving app) ->
  (exists r o, In r (data app) /\ Operator r = Some o) ->
  (allowed_fails app = [] ->
     get_bar_chart regex app entered_fail = Raise IndexError) /\
  (forall category,
     validate_fail_input app entered_fail = Return category ->
     (forall e, regex category = Raise e ->
        get_bar_chart regex app entered_fail = Raise e) /\
     (forall m, regex category = Return m ->
        (get_bar_chart regex app entered_fail = Raise ValueError <->
         exists r, In r (selected_failures (data app) m) /\ Operator r = None) /\
        ((forall r, In r (selected_failures (data app) m) -> Operator r <> None) ->
         exists bar, get_bar_chart regex app entered_fail = Return bar))).
Proof.
  intros Hload _. split.
  - intros Hempty. unfold get_bar_chart, validate_fail_input, str_in.
    now rewrite Hempty.
  - intros category Hv. split.
    + intros e He. unfold get_bar_chart, str_contains_regex.
      rewrite Hv. cbn [bind]. now rewrite He.
    + intros m Hm.
      rewrite (get_bar_chart_selected regex _ _ _ _ _ _ Hload Hv Hm).
      destruct (operators_present (selected_failures (data app) m)) eqn:Ep.
      * split; [split; [discriminate|]|eauto].
        intros H. apply operators_present_false in H. congruence.
      * apply operators_present_false in Ep. split; [tauto|].
        intros H. destruct Ep as (r & Hr & Ho). now apply H in Hr.
Qed.

Lemma get_bar_chart_errors_witness :
  load iso_to_datetime csv_without_failure = Return (Serving (app_of csv_without_failure)) /\
  get_bar_chart literal_regex (app_of csv_without_failure) "Launch" = Raise IndexError.
Proof.
  split; [reflexivity|].
  refine (proj1 (get_bar_chart_errors literal_regex iso_to_datetime
                   csv_without_failure (app_of csv_without_failure) "Launch"
                   eq_refl _) eq_refl).
  eexists _, "United States". split; [left; reflexivity|reflexivity].
Defined.

(** X14. An input outside [allowed_fails] gets the chart of the first
    entry of [allowed_fails]: the handler treats it exactly as if that
    entry had been selected. *)
Theorem get_bar_chart_fallback (regex : regex_engine) (app : App)
    (entered_fail first : string) (rest : list string) :
  allowed_fails app = first :: rest ->
  ~ In entered_fail (allowed_fails app) ->
  get_bar_chart regex app entered_fail = get_bar_chart regex app first.
Proof.
  intros Ha Hn. unfold get_bar_chart.
  assert (H1 : validate_fail_input app entered_fail = Return first).
  { unfold validate_fail_input.
    destruct (str_in entered_fail (allowed_fails app)) eqn:E;
      [apply str_in_In in E; contradiction|].
    now rewrite Ha. }
  assert (H2 : validate_fail_input app first = Return first).
  { unfold validate_fail_input.
    replace (str_in first (allowed_fails app)) with true; [reflexivity|].
    symmetry. apply str_in_In. rewrite Ha. now left. }
  now rewrite H1, H2.
Qed.

Lemma get_bar_chart_fallback_witness :
  allowed_fails (app_of sample_csv) = "Spacecraft" :: ["Partial"; "Launch"] /\
  get_bar_chart literal_regex (app_of sample_csv) "Engine" =
    get_bar_chart literal_regex (app_of sample_csv) "Spacecraft".
Proof.
  split; [reflexivity|].
  apply (get_bar_chart_fallback literal_regex (app_of sample_csv) "Engine"
           "Spacecraft" ["Partial"; "Launch"] eq_refl).
  vm_compute. intuition discriminate.
Defined.

(** X15. After a start with year bounds a validated category without
    regular expression metacharacters always selects at least one failure
    record: the category is the first word of the Outcome of some row of
    [fail], it compiles, and that Outcome contains it. So the bars of such
    a category never come from an empty selection. (A category with a
    metacharacter, as in "Engine(s) failure", need not match the Outcome it
    was read from.) *)
Theorem validated_category_selects_rows (regex : regex_engine)
    (to_datetime : datetime_parser) (csv : list CsvRow) (app : App)
    (entered_fail category : string) :
  regex_contract regex ->
  load to_datetime csv = Return (Serving app) ->
  validate_fail_input app entered_fail = Return category ->
  regex_plain category = true ->
  In category (allowed_fails app) /\
  exists m, regex category = Return m /\
    exists r, In r (selected_failures (data app) m).
Proof.
  intros Hregex Hload Hv Hplain. pose proof (validate_fail_input_In _ _ _ Hv) as Hin.
  split; [exact Hin|].
  destruct (Hregex category Hplain) as (m & Hm & Hsearch).
  exists m. split; [exact Hm|].
  destruct (load_inv _ _ _ Hload) as (_ & _ & Hfail & Hallowed & _).
  rewrite Hallowed in Hin. apply in_map_iff in Hin as (o & Hw & Ho).
  apply (proj1 (unique_In String.eqb String.eqb_eq _ _)) in Ho.
  apply (proj1 (dropna_In _ _)) in Ho. apply in_map_iff in Ho as (r & Hro & Hr).
  exists r. unfold selected_failures. rewrite <- Hfail.
  apply filter_In. split; [assumption|].
  unfold outcome_matches. rewrite Hro, Hsearch, <- Hw.
  apply prefix_str_contains, first_word_prefix.
Qed.

Lemma literal_regex_contract : regex_contract literal_regex.
Proof.
  intros pat Hp. exists (str_contains pat). unfold literal_regex.
  rewrite Hp. split; reflexivity.
Qed.

Lemma validated_category_selects_rows_witness :
  regex_contract literal_regex /\
  load iso_to_datetime sample_csv = Return (Serving (app_of sample_csv)) /\
  validate_fail_input (app_of sample_csv) "Engine" = Return "Spacecraft" /\
  exists m, literal_regex "Spacecraft" = Return m /\
    exists r, In r (selected_failures (data (app_of sample_csv)) m).
Proof.
  split; [exact literal_regex_contract|]. split; [reflexivity|].
  split; [reflexivity|].
  exact (proj2 (validated_category_selects_rows literal_regex iso_to_datetime
                  sample_csv (app_of sample_csv) "Engine" "Spacecraft"
                  literal_regex_contract eq_refl eq_refl eq_refl)).
Defined.

(* ===================================================================== *)
(** ** Further properties: the shape of the matrix *)
(* ===================================================================== *)

Lemma frame_cell_closed (idx cols : list label) (g : label -> label -> Z)
    (r c : label) :
  In r idx -> In c cols ->
  frame_cell (mkFrame idx (map (fun c => (c, map (fun r => g r c) idx)) cols)) r c =
    Some (g r c).
Proof.
  intros Hr Hc. unfold frame_cell.
  rewrite (get_column_closed idx cols (fun c => map (fun r => g r c) idx) c Hc).
  cbn [index]. destruct (position_nth_error r idx Hr) as (i & -> & Hn).
  exact (map_nth_error (fun r => g r c) i idx Hn).
Qed.

Lemma count_rows_app {A : Type} (p : A -> bool) (l1 l2 : list A) :
  count_rows p (l1 ++ l2) = count_rows p l1 + count_rows p l2.
Proof. unfold count_rows. rewrite filter_app, length_app. lia. Qed.

(** X16. Whatever rows it is given, [create_matrix_for_heatmap] returns a
    rectangular matrix: the row labels are distinct, the column labels are
    distinct, every column has one cell per row label, and every cell lies
    between 0 and the number of rows given; for no rows every cell is 0. *)
Theorem create_matrix_for_heatmap_shape (data df : DataFrame) :
  let m := create_matrix_for_heatmap data df in
  NoDup (index m) /\ NoDup (map fst (columns m)) /\
  (forall e, In e (columns m) ->
     List.length (snd e) = List.length (index m) /\
     forall v, In v (snd e) -> 0 <= v <= Z.of_nat (List.length df)) /\
  (df = [] -> forall e v, In e (columns m) -> In v (snd e) -> v = 0).
Proof.
  cbv zeta. rewrite create_matrix_for_heatmap_eq. cbv zeta. cbn [index columns].
  assert (Hcells : forall e,
            In e (map (fun c => (c, map (fun r => count_rows (has_pair r c) df)
                                       (unique label_eqb (map Mission_Type data))))
                    (unique label_eqb (map Outcome data))) ->
            List.length (snd e) =
              List.length (unique label_eqb (map Mission_Type data)) /\
            forall v, In v (snd e) -> 0 <= v <= Z.of_nat (List.length df)).
  { intros e He. apply in_map_iff in He as (c & <- & _). cbn [snd].
    split; [apply length_map|].
    intros v Hv. apply in_map_iff in Hv as (r & <- & _).
    split; [apply count_rows_nonneg|apply count_rows_le_length]. }
  split; [apply (unique_NoDup label_eqb label_eqb_eq)|].
  split.
  - rewrite map_map. cbn [fst]. rewrite map_id.
    apply (unique_NoDup label_eqb label_eqb_eq).
  - split; [exact Hcells|].
    intros -> e v He Hv. destruct (Hcells e He) as [_ Hb].
    specialize (Hb v Hv). cbn in Hb. lia.
Qed.

(** X17. The matrix is additive in the rows it counts: for two groups of
    rows put together, every cell is the sum of the cells of the two
    groups, and so is the total of the cells. *)
Theorem create_matrix_for_heatmap_additive (data df1 df2 : DataFrame) :
  let m1 := create_matrix_for_heatmap data df1 in
  let m2 := create_matrix_for_heatmap data df2 in
  let m := create_matrix_for_heatmap data (df1 ++ df2)%list in
  index m = index m1 /\ map fst (columns m) = map fst (columns m1) /\
  (forall type outcome,
     In type (index m) -> In outcome (map fst (columns m)) ->
     exists a b,
       frame_cell m1 type outcome = Some a /\
       frame_cell m2 type outcome = Some b /\
       frame_cell m type outcome = Some (a + b)) /\
  frame_total m = frame_total m1 + frame_total m2.
Proof.
  cbv zeta. rewrite !create_matrix_for_heatmap_eq. cbv zeta. cbn [index columns].
  set (idx := unique label_eqb (map Mission_Type data)).
  set (cols := unique label_eqb (map Outcome data)).
  assert (Hl : forall df,
            map fst (map (fun c => (c, map (fun r => count_rows (has_pair r c) df) idx))
                         cols) = cols).
  { intros df. rewrite map_map. cbn [fst]. apply map_id. }
  rewrite !Hl. repeat split.
  - intros type outcome Ht Ho.
    exists (count_rows (has_pair type outcome) df1),
           (count_rows (has_pair type outcome) df2).
    rewrite <- count_rows_app.
    rewrite !(frame_cell_closed idx cols) by assumption. auto.
  - unfold frame_total. cbn [columns]. rewrite !map_map. cbn [snd].
    rewrite <- sum_Z_map_add. f_equal. apply map_ext. intros c.
    rewrite <- sum_Z_map_add. f_equal. apply map_ext. intros r.
    apply count_rows_app.
Qed.
